(** * Klipper offset probe: a shallow embedding of [offset_probe.py]

    The module [offset_probe.py] is a Klipper plug-in.  Everything it calls
    on the host (the printer's object registry, the toolheads, the homing
    service, the G-code templates, the G-code command object) lives in
    Klipper, not in this repository: those collaborators are gathered in the
    record [Klipper] and every statement below quantifies over them.

    Conventions of the embedding.
    - A Python [float] is modelled by the rational number it denotes ([Q]),
      an [int] by [Z]; the rounding of binary64 arithmetic is not modelled.
      Halving a speed and rounding it to an integer, the float computation
      whose exact outcome matters below, is exact in binary64.
    - The language is Python 3: [round] rounds halves to the even integer
      and returns an [int].
    - A method body is a computation in the monad [M]: it reads and changes
      the machine (a value of the abstract type [W]), may raise, and emits
      the commands it issues to the host as a list of [event]s, which is
      kept when it raises. *)

From Stdlib Require Import ZArith QArith Qabs String Ascii List Bool Lia.
From Stdlib Require Import DecimalString.
Import ListNotations.

Local Open Scope string_scope.
Local Open Scope Z_scope.

(** ** Python numbers and string formatting *)

(** [round(x)] of Python 3 on a float: nearest integer, halves to even. *)
Definition py_round (x : Q) : Z :=
  let n := Qnum x in
  let d := Z.pos (Qden x) in
  let f := n / d in
  match (2 * (n mod d)) ?= d with
  | Lt => f
  | Gt => f + 1
  | Eq => if Z.even f then f else f + 1
  end.

(** ['%d' % n] for an integer. *)
Definition format_d (n : Z) : string := NilZero.string_of_int (Z.to_int n).

(** Left padding with ['0'] up to [w] characters. *)
Definition zfill (w : nat) (s : string) : string :=
  String.concat "" (repeat "0" (w - String.length s)) ++ s.

(** ['%.6f' % x]: sign, integer part, point, six digits, the value being
    rounded to the nearest multiple of 10^-6 (halves to even). *)
Definition format_f6 (x : Q) : string :=
  let n := py_round (Qabs x * 1000000) in
  (if Qlt_le_dec x 0 then "-" else "")
    ++ format_d (n / 1000000) ++ "." ++ zfill 6 (format_d (n mod 1000000)).

(** [sep.join(l)]. *)
Definition py_join (sep : string) (l : list string) : string :=
  String.concat sep l.

(** [needle in hay] for two strings. *)
Fixpoint py_contains (needle hay : string) : bool :=
  if String.prefix needle hay then true
  else match hay with
       | EmptyString => false
       | String _ rest => py_contains needle rest
       end.

(** [x in l] for a collection of strings. *)
Definition py_in (x : string) (l : list string) : bool :=
  existsb (String.eqb x) l.

(** ** Values, exceptions and the host *)

(** Identity of a host object (a toolhead, the homing service, ...). *)
Definition obj := nat.

(** What the source passes around under the name [toolhead]: a registry
    name such as ['toolhead1'], an object already looked up, or (in
    [_accurate_probe]) the integer [2]. *)
Inductive pyref : Type :=
| RName (name : string)
| RObj (o : obj)
| RInt (n : Z).

Definition pyref_eqb (a b : pyref) : bool :=
  match a, b with
  | RName s, RName t => String.eqb s t
  | RObj o, RObj p => Nat.eqb o p
  | RInt n, RInt m => Z.eqb n m
  | _, _ => false
  end.

(** The exceptions that reach the caller of a method. *)
Inductive exn : Type :=
| CommandError (msg : string)      (* printer.command_error(msg) *)
| ConfigError (name : pyref)       (* printer.config_error: unknown config object *)
| TypeError
| IndexError
| ValueError
| HostError (msg : string).        (* any other exception of a collaborator *)

Inductive outcome (A : Type) : Type :=
| Ok (a : A)
| Raise (e : exn).
Arguments Ok {A} a.
Arguments Raise {A} e.

(** A G-code template loaded by [gcode_macro.load_template], named by the
    configuration option it was loaded from. *)
Definition template := string.

(** The commands issued to the host, in the order they are issued. *)
Inductive event : Type :=
| EvRunGcode (t : template)
| EvManualMove (toolhead : obj) (coord : list (option Q)) (speed : Q)
| EvProbingMove (pos : list Q) (speed : Q)
| EvRespondInfo (msg : string).

(** The collaborators of the plug-in, over a machine state [W]. *)
Record Klipper (W : Type) : Type := {
  (* printer.objects, the dictionary behind printer.lookup_object *)
  objects : list (pyref * obj);
  (* toolhead.get_status(curtime)['homed_axes'] *)
  homed_axes : W -> obj -> list string;
  (* toolhead.get_position(): [x, y, z, e] *)
  get_position : W -> obj -> list Q;
  (* toolhead.manual_move(coord, speed) *)
  manual_move : obj -> list (option Q) -> Q -> W -> outcome unit * W;
  (* phoming.probing_move(mcu_probe, pos, speed) *)
  probing_move : obj -> list Q -> Q -> W -> outcome (list Q) * W;
  (* gcode_move.base_position *)
  base_position : W -> list Q;
  (* template.run_gcode_from_command() *)
  run_gcode_from_command : template -> W -> outcome unit * W
}.
Arguments objects {W} _.
Arguments homed_axes {W} _ _ _.
Arguments get_position {W} _ _ _.
Arguments manual_move {W} _ _ _ _ _.
Arguments probing_move {W} _ _ _ _ _.
Arguments base_position {W} _ _.
Arguments run_gcode_from_command {W} _ _ _.

(** The G-code command object, by the one method the plug-in asks a value
    from: [gcmd.get_float(name, default, above=above)]. *)
Record GCodeCommand : Type := {
  get_float : string -> Q -> Q -> outcome Q
}.

(** The fields of an [OffsetProbe] instance set by [__init__]. *)
Record OffsetProbe : Type := {
  probe_x : Q;
  probe_y : Q;
  tool_probe_z : Q;
  speed : Q;
  lift_speed : Q;
  lift_distance : Q;
  move_speed : Q;
  z_position : Q;
  start_gcode : template;
  end_gcode : template;
  toolchange_gcode_0 : template;
  toolchange_gcode_1 : template
}.

Definition set_probe_x (v : Q) (self : OffsetProbe) : OffsetProbe :=
  {| probe_x := v; probe_y := probe_y self; tool_probe_z := tool_probe_z self;
     speed := speed self; lift_speed := lift_speed self;
     lift_distance := lift_distance self; move_speed := move_speed self;
     z_position := z_position self; start_gcode := start_gcode self;
     end_gcode := end_gcode self;
     toolchange_gcode_0 := toolchange_gcode_0 self;
     toolchange_gcode_1 := toolchange_gcode_1 self |}.

Definition set_probe_y (v : Q) (self : OffsetProbe) : OffsetProbe :=
  {| probe_x := probe_x self; probe_y := v; tool_probe_z := tool_probe_z self;
     speed := speed self; lift_speed := lift_speed self;
     lift_distance := lift_distance self; move_speed := move_speed self;
     z_position := z_position self; start_gcode := start_gcode self;
     end_gcode := end_gcode self;
     toolchange_gcode_0 := toolchange_gcode_0 self;
     toolchange_gcode_1 := toolchange_gcode_1 self |}.

(** ** The monad of method bodies *)

Definition M (W A : Type) : Type := W -> outcome A * W * list event.

Definition ret {W A} (a : A) : M W A := fun w => (Ok a, w, []).

Definition raise {W A} (e : exn) : M W A := fun w => (Raise e, w, []).

Definition bind {W A B} (m : M W A) (k : A -> M W B) : M W B :=
  fun w =>
    match m w with
    | (Ok a, w1, l1) => let '(r, w2, l2) := k a w1 in (r, w2, (l1 ++ l2)%list)
    | (Raise e, w1, l1) => (Raise e, w1, l1)
    end.

Declare Scope py_scope.
Delimit Scope py_scope with py.
Notation "x <- m ;; k" := (bind m (fun x => k))
  (at level 61, m at next level, right associativity) : py_scope.
Notation "m ;; k" := (bind m (fun _ => k))
  (at level 61, right associativity) : py_scope.

(** A pure computation that may raise. *)
Definition lift_outcome {W A} (r : outcome A) : M W A := fun w => (r, w, []).

(** [try: body except self.printer.command_error as e: handler(str(e))]. *)
Definition try_except_command_error {W A}
    (body : M W A) (handler : string -> M W A) : M W A :=
  fun w =>
    match body w with
    | (Raise (CommandError msg), w1, l1) =>
        let '(r, w2, l2) := handler msg w1 in (r, w2, (l1 ++ l2)%list)
    | other => other
    end.

Definition result_of {W A} (r : outcome A * W * list event) : outcome A := fst (fst r).
Definition world_of {W A} (r : outcome A * W * list event) : W := snd (fst r).
Definition events_of {W A} (r : outcome A * W * list event) : list event := snd r.

(** ** Python lists *)

(** [l[i]] for [i >= 0]. *)
Definition getitem {A} (l : list A) (i : nat) : outcome A :=
  match nth_error l i with
  | Some a => Ok a
  | None => Raise IndexError
  end.

Fixpoint update {A} (l : list A) (i : nat) (v : A) : list A :=
  match l, i with
  | [], _ => []
  | _ :: t, O => v :: t
  | h :: t, S j => h :: update t j v
  end.

(** [l[i] = v] for [i >= 0]; the updated list. *)
Definition setitem {A} (l : list A) (i : nat) (v : A) : outcome (list A) :=
  if Nat.ltb i (List.length l) then Ok (update l i v) else Raise IndexError.

(** The two kinds of operands met by [+] on line 136 of the source. *)
Inductive pyval : Type :=
| PFloat (x : Q)
| PList (l : list Q).

(** [a + b]: floats add, lists concatenate, a float and a list do not mix. *)
Definition py_add (a b : pyval) : outcome pyval :=
  match a, b with
  | PFloat x, PFloat y => Ok (PFloat (x + y)%Q)
  | PList l, PList r => Ok (PList (l ++ r)%list)
  | _, _ => Raise TypeError
  end.

(** [d.get(key)] on an association list. *)
Fixpoint assoc {K V} (eqb : K -> K -> bool) (key : K) (d : list (K * V)) : option V :=
  match d with
  | [] => None
  | (k, v) :: rest => if eqb key k then Some v else assoc eqb key rest
  end.

(** The command object of a command line with the given parameters, parsed
    as floats: [get_float] answers the default when the parameter is absent
    and raises when the value is not above the bound. *)
Definition command_line (params : list (string * Q)) : GCodeCommand :=
  {| get_float := fun name default above =>
       match assoc String.eqb name params with
       | None => Ok default
       | Some v =>
           if Qle_bool v above
           then Raise (CommandError (name ++ " must be above the bound"))
           else Ok v
       end |}.

(** ** The methods of [OffsetProbe] *)

Definition nl : string := String (ascii_of_nat 10) EmptyString.

Definition HINT_TIMEOUT : string :=
  nl ++ "If the probe did not move far enough to trigger, consider"
  ++ nl ++ "reducing the Z axis minimum position so the probe can travel further."
  ++ nl ++ "The probe will not move further than the minimum Z position."
  ++ nl.

(** [get_lift_speed(self, gcmd=None)]. *)
Definition get_lift_speed (self : OffsetProbe) (gcmd : option GCodeCommand)
    : outcome Q :=
  match gcmd with
  | Some g => get_float g "LIFT_SPEED" (lift_speed self) 0
  | None => Ok (lift_speed self)
  end.

(** The loop of lines 164-166: [offset_str.append('T%d=%.6f' % (i, offsets[i]))]
    for [i] in [range(len(offsets))], started at [i]. *)
Fixpoint offset_strs (i : Z) (offsets : list Q) : list string :=
  match offsets with
  | [] => []
  | o :: rest => ("T" ++ format_d i ++ "=" ++ format_f6 o) :: offset_strs (i + 1) rest
  end.

Section Methods.

Context {W : Type} (K : Klipper W).
Local Open Scope py_scope.

(** [self.printer.lookup_object(name)]: the object registered under [name],
    or a configuration error. *)
Definition lookup_object (name : pyref) : M W obj :=
  fun w =>
    match assoc pyref_eqb name (objects K) with
    | Some o => (Ok o, w, [])
    | None => (Raise (ConfigError name), w, [])
    end.

Definition call_homed_axes (toolhead : obj) : M W (list string) :=
  fun w => (Ok (homed_axes K w toolhead), w, []).

Definition call_get_position (toolhead : obj) : M W (list Q) :=
  fun w => (Ok (get_position K w toolhead), w, []).

Definition call_manual_move (toolhead : obj) (coord : list (option Q)) (v : Q)
    : M W unit :=
  fun w =>
    let '(r, w1) := manual_move K toolhead coord v w in
    (r, w1, [EvManualMove toolhead coord v]).

Definition call_probing_move (phoming : obj) (pos : list Q) (v : Q)
    : M W (list Q) :=
  fun w =>
    let '(r, w1) := probing_move K phoming pos v w in
    (r, w1, [EvProbingMove pos v]).

Definition read_base_position : M W (list Q) :=
  fun w => (Ok (base_position K w), w, []).

Definition call_run_gcode (t : template) : M W unit :=
  fun w =>
    let '(r, w1) := run_gcode_from_command K t w in
    (r, w1, [EvRunGcode t]).

(** [gcmd.respond_info(msg)]. *)
Definition respond_info (gcmd : GCodeCommand) (msg : string) : M W unit :=
  fun w => (Ok tt, w, [EvRespondInfo msg]).

(** [_ensure_homed(self)], lines 63-67. *)
Definition _ensure_homed : M W unit :=
  toolhead <- lookup_object (RName "toolhead") ;;
  axes <- call_homed_axes toolhead ;;
  if negb (py_in "z" axes)
  then raise (CommandError "Must home before offset probing")
  else ret tt.

(** [_probe(self, speed, toolhead)], lines 70-88. *)
Definition _probe (self : OffsetProbe) (v : Q) (toolhead : pyref) : M W Q :=
  _ensure_homed ;;
  toolhead <- lookup_object toolhead ;;
  phoming <- lookup_object (RName "homing") ;;
  pos <- call_get_position toolhead ;;
  pos <- lift_outcome (setitem pos 2 (z_position self)) ;;
  epos <- try_except_command_error
            (call_probing_move phoming pos v)
            (fun reason =>
               let reason :=
                 if py_contains "Timeout during endstop homing" reason
                 then reason ++ HINT_TIMEOUT
                 else reason in
               raise (CommandError reason)) ;;
  lift_outcome (getitem epos 2).

(** [_get_gcode_position(self, x=None, y=None, z=None)], lines 100-109. *)
Definition _get_gcode_position (x y z : option Q)
    : M W (option Q * option Q * option Q) :=
  offsets <- read_base_position ;;
  x <- match x with
       | Some x => o <- lift_outcome (getitem offsets 0) ;; ret (Some (x + o)%Q)
       | None => ret None
       end ;;
  y <- match y with
       | Some y => o <- lift_outcome (getitem offsets 1) ;; ret (Some (y + o)%Q)
       | None => ret None
       end ;;
  z <- match z with
       | Some z => o <- lift_outcome (getitem offsets 2) ;; ret (Some (z + o)%Q)
       | None => ret None
       end ;;
  ret (x, y, z).

(** [_lift_between_probes(self, toolhead, dist=None)], lines 111-117. *)
Definition _lift_between_probes (self : OffsetProbe) (toolhead : pyref)
    (dist : option Q) : M W unit :=
  let dist := match dist with
              | None => lift_distance self
              | Some d => d
              end in
  toolhead <- lookup_object toolhead ;;
  liftpos <- call_get_position toolhead ;;
  z <- lift_outcome (getitem liftpos 2) ;;
  liftpos <- lift_outcome (setitem liftpos 2 (z + dist)%Q) ;;
  call_manual_move toolhead (map Some liftpos) (lift_speed self).

(** [_accurate_probe(self, speed, toolhead)], lines 91-98. *)
Definition _accurate_probe (self : OffsetProbe) (v : Q) (toolhead : pyref)
    : M W Q :=
  toolhead <- lookup_object toolhead ;;
  start_z <- _probe self v (RObj toolhead) ;;
  let reprobe_speed := py_round (v / 2) in
  _lift_between_probes self (RInt 2) None ;;
  accurate_z <- _probe self (inject_Z reprobe_speed) (RObj toolhead) ;;
  ret accurate_z.

(** [cmd_OFFSET_PROBE], lines 131-143: the cycle of tool 0.  Line 136 is the
    chained assignment
    [coord = (self.probe_x, y) = (self.probe_y, z) = curr_pos[2] + curr_pos[3:]]:
    the sum is evaluated first, then bound to [coord] and unpacked twice.
    The instance with its reassigned fields is returned with [base_z]. *)
Definition probe_tool_0 (self : OffsetProbe) (gcmd : GCodeCommand)
    (toolhead : obj) : M W (OffsetProbe * Q) :=
  let toolchange_script := toolchange_gcode_0 self in
  call_run_gcode toolchange_script ;;
  curr_pos <- call_get_position toolhead ;;
  z <- lift_outcome (getitem curr_pos 2) ;;
  coord <- lift_outcome (py_add (PFloat z) (PList (skipn 3 curr_pos))) ;;
  match coord with
  | PList [a; b] =>
      let self := set_probe_y a (set_probe_x a self) in
      call_manual_move toolhead [Some a; Some b] (move_speed self) ;;
      base_z <- _accurate_probe self (speed self) (RObj toolhead) ;;
      respond_info gcmd ("Tool " ++ format_d 0 ++ ": " ++ format_f6 base_z) ;;
      _lift_between_probes self (RObj toolhead) None ;;
      ret (self, base_z)
  | PList _ => raise ValueError
  | PFloat _ => raise TypeError
  end.

(** [cmd_OFFSET_PROBE], lines 145-160: the cycle of tool 1. *)
Definition probe_tool_1 (self : OffsetProbe) (gcmd : GCodeCommand)
    (base_z : Q) (offsets : list Q) : M W (list Q) :=
  toolhead <- lookup_object (RName "toolhead1") ;;
  let toolchange_script := toolchange_gcode_1 self in
  call_run_gcode toolchange_script ;;
  curr_pos <- call_get_position toolhead ;;
  cz <- lift_outcome (getitem curr_pos 2) ;;
  xyz <- _get_gcode_position (Some (probe_x self)) (Some (probe_y self)) (Some cz) ;;
  let '(x, y, z) := xyz in
  let coord := ([x; y; z] ++ map Some (skipn 3 curr_pos))%list in
  call_manual_move toolhead coord (move_speed self) ;;
  z <- _accurate_probe self (speed self) (RObj toolhead) ;;
  let offsets := (offsets ++ [(z - base_z)%Q])%list in
  respond_info gcmd ("Tool " ++ format_d 0 ++ ": " ++ format_f6 z) ;;
  _lift_between_probes self (RObj toolhead) None ;;
  ret offsets.

(** [cmd_OFFSET_PROBE], lines 162-169: the end script and the summary. *)
Definition report_offsets (self : OffsetProbe) (gcmd : GCodeCommand)
    (offsets : list Q) : M W (list Q) :=
  call_run_gcode (end_gcode self) ;;
  let offset_str := offset_strs 0 offsets in
  respond_info gcmd ("Offsets: " ++ py_join ", " offset_str) ;;
  ret offsets.

(** [cmd_OFFSET_PROBE(self, gcmd)], lines 121-169. *)
Definition cmd_OFFSET_PROBE (self : OffsetProbe) (gcmd : GCodeCommand)
    : M W (list Q) :=
  call_run_gcode (start_gcode self) ;;
  toolhead <- lookup_object (RName "toolhead") ;;
  let offsets := [] in
  r <- probe_tool_0 self gcmd toolhead ;;
  let '(self, base_z) := r in
  offsets <- probe_tool_1 self gcmd base_z offsets ;;
  report_offsets self gcmd offsets.

End Methods.

(** ** Properties of a host used in the statements *)

(** The registry is keyed by names only, as Klipper's is: objects are
    registered under their configuration section names. *)
Definition names_only (d : list (pyref * obj)) : bool :=
  forallb (fun kv => match fst kv with RName _ => true | _ => false end) d.

(** The same host with another offset frame. *)
Definition with_base_position {W} (f : W -> list Q) (K : Klipper W) : Klipper W :=
  {| objects := objects K;
     homed_axes := homed_axes K;
     get_position := get_position K;
     manual_move := manual_move K;
     probing_move := probing_move K;
     base_position := f;
     run_gcode_from_command := run_gcode_from_command K |}.

(** The same host with another registry. *)
Definition with_objects {W} (d : list (pyref * obj)) (K : Klipper W) : Klipper W :=
  {| objects := d;
     homed_axes := homed_axes K;
     get_position := get_position K;
     manual_move := manual_move K;
     probing_move := probing_move K;
     base_position := base_position K;
     run_gcode_from_command := run_gcode_from_command K |}.

Definition is_probing_move (ev : event) : bool :=
  match ev with EvProbingMove _ _ => true | _ => false end.

Definition is_manual_move (ev : event) : bool :=
  match ev with EvManualMove _ _ _ => true | _ => false end.

Definition is_run_gcode (ev : event) : bool :=
  match ev with EvRunGcode _ => true | _ => false end.

Definition is_respond_info (ev : event) : bool :=
  match ev with EvRespondInfo _ => true | _ => false end.

(** ** A two-tool machine

    A small concrete host: two toolheads sharing one probe surface, tool 0
    triggering at [trigger0] and tool 1 at [trigger1]; the toolchange
    scripts select the active tool and with it the offset frame. *)

Record machine : Type := {
  active : nat;
  pos0 : list Q;
  pos1 : list Q;
  axes : list string;
  trigger0 : Q;
  trigger1 : Q;
  frame0 : list Q;
  frame1 : list Q
}.

Definition set_active (n : nat) (m : machine) : machine :=
  {| active := n; pos0 := pos0 m; pos1 := pos1 m; axes := axes m;
     trigger0 := trigger0 m; trigger1 := trigger1 m;
     frame0 := frame0 m; frame1 := frame1 m |}.

Definition set_pos (o : obj) (p : list Q) (m : machine) : machine :=
  {| active := active m;
     pos0 := if Nat.eqb o 0 then p else pos0 m;
     pos1 := if Nat.eqb o 1 then p else pos1 m;
     axes := axes m; trigger0 := trigger0 m; trigger1 := trigger1 m;
     frame0 := frame0 m; frame1 := frame1 m |}.

Definition machine_position (m : machine) (o : obj) : list Q :=
  match o with
  | O => pos0 m
  | S O => pos1 m
  | _ => []
  end.

(** Klipper's [manual_move]: the axes given as [None] keep their value. *)
Fixpoint merge_coord (coord : list (option Q)) (cur : list Q) : list Q :=
  match coord, cur with
  | Some c :: ct, _ :: rest => c :: merge_coord ct rest
  | None :: ct, x :: rest => x :: merge_coord ct rest
  | _, _ => cur
  end.

Definition machine_manual_move (o : obj) (coord : list (option Q)) (v : Q)
    (m : machine) : outcome unit * machine :=
  (Ok tt, set_pos o (merge_coord coord (machine_position m o)) m).

(** The probe travels down to the target; it triggers at the active tool's
    height when the target lies at or below it, and times out otherwise. *)
Definition machine_probing_move (phoming : obj) (pos : list Q) (v : Q)
    (m : machine) : outcome (list Q) * machine :=
  let t := if Nat.eqb (active m) 0 then trigger0 m else trigger1 m in
  match pos with
  | x :: y :: z :: rest =>
      if Qle_bool z t
      then (Ok (x :: y :: t :: rest), set_pos (active m) (x :: y :: t :: rest) m)
      else (Raise (CommandError "Timeout during endstop homing"),
            set_pos (active m) pos m)
  | _ => (Raise IndexError, m)
  end.

Definition machine_run_gcode (t : template) (m : machine) : outcome unit * machine :=
  if String.eqb t "toolchange_gcode_0" then (Ok tt, set_active 0 m)
  else if String.eqb t "toolchange_gcode_1" then (Ok tt, set_active 1 m)
  else (Ok tt, m).

Definition demo_klipper : Klipper machine :=
  {| objects := [(RName "toolhead", 0%nat); (RName "toolhead1", 1%nat);
                 (RName "homing", 2%nat); (RName "gcode_move", 3%nat)];
     homed_axes := fun m _ => axes m;
     get_position := machine_position;
     manual_move := machine_manual_move;
     probing_move := machine_probing_move;
     base_position := fun m => if Nat.eqb (active m) 0 then frame0 m else frame1 m;
     run_gcode_from_command := machine_run_gcode |}.

(** A host whose registry also answers to object handles and to the key
    [2].  Klipper's registry has no such keys; this host only serves to run
    the statements that follow a handle lookup. *)
Definition handle_klipper : Klipper machine :=
  with_objects
    (objects demo_klipper ++
     [(RObj 0%nat, 0%nat); (RObj 1%nat, 1%nat); (RInt 2, 0%nat)])%list
    demo_klipper.

(** The configuration of the end-to-end scenario: probe point (10, 20),
    reprobe height 1, speed 5, lift distance 0.5, move speed 100. *)
Definition demo_probe : OffsetProbe :=
  {| probe_x := 10; probe_y := 20; tool_probe_z := 1;
     speed := 5; lift_speed := 5; lift_distance := 0.5; move_speed := 100;
     z_position := 0;
     start_gcode := "start_gcode"; end_gcode := "end_gcode";
     toolchange_gcode_0 := "toolchange_gcode_0";
     toolchange_gcode_1 := "toolchange_gcode_1" |}.

(** The same configuration with the Z floor at 1, above both trigger
    heights: the probe reaches the floor without triggering. *)
Definition high_floor_probe : OffsetProbe :=
  {| probe_x := 10; probe_y := 20; tool_probe_z := 1;
     speed := 5; lift_speed := 5; lift_distance := 0.5; move_speed := 100;
     z_position := 1;
     start_gcode := "start_gcode"; end_gcode := "end_gcode";
     toolchange_gcode_0 := "toolchange_gcode_0";
     toolchange_gcode_1 := "toolchange_gcode_1" |}.

(** Tool 0 triggers at 0.5 and tool 1 at 0.62; all axes are homed. *)
Definition demo_machine : machine :=
  {| active := 0; pos0 := [0; 0; 10; 0]%Q; pos1 := [0; 0; 10; 0]%Q;
     axes := ["x"; "y"; "z"];
     trigger0 := 0.5; trigger1 := 0.62;
     frame0 := [0; 0; 0; 0]%Q; frame1 := [1; 2; 0.25; 0]%Q |}.

(** The same machine before homing Z. *)
Definition unhomed_machine : machine :=
  {| active := 0; pos0 := [0; 0; 10; 0]%Q; pos1 := [0; 0; 10; 0]%Q;
     axes := ["x"; "y"];
     trigger0 := 0.5; trigger1 := 0.62;
     frame0 := [0; 0; 0; 0]%Q; frame1 := [1; 2; 0.25; 0]%Q |}.

(** [OFFSET_PROBE] without arguments, and with [LIFT_SPEED=10]. *)
Definition gcmd_plain : GCodeCommand := command_line [].
Definition gcmd_lift_10 : GCodeCommand := command_line [("LIFT_SPEED", 10%Q)].

(** ** Construction: [__init__] and [load_config] *)

(** A configuration section, by the one method the plug-in calls on it:
    [section.getfloat(option, default, above=above)], the bound being
    optional.  ([note_valid] only concerns the host's bookkeeping.) *)
Record ConfigSection : Type := {
  getfloat : string -> Q -> option Q -> outcome Q
}.

(** The [config] object handed to the plug-in: its own section, and the
    other sections of the file through [has_section] and [getsection]. *)
Record ConfigWrapper : Type := {
  this_section : ConfigSection;
  has_section : string -> bool;
  getsection : string -> ConfigSection
}.

(** The services of the host used while the plug-in is constructed. *)
Record Loader (W : Type) : Type := {
  (* probe.ProbeEndstopWrapper(config) *)
  probe_endstop_wrapper : W -> outcome obj * W;
  (* printer.load_object(config, name) *)
  load_object : string -> W -> outcome obj * W;
  (* gcode.register_command(cmd, handler, desc=desc) *)
  register_command : string -> string -> W -> outcome unit * W;
  (* gcode_macro.load_template(config, option, default) *)
  load_template : string -> string -> W -> outcome template * W
}.
Arguments probe_endstop_wrapper {W} _ _.
Arguments load_object {W} _ _ _.
Arguments register_command {W} _ _ _ _.
Arguments load_template {W} _ _ _ _.

Definition cmd_OFFSET_PROBE_help : string :=
  "Calculate the offsets for all defined tools".

Section Construction.

Context {W : Type} (K : Klipper W) (L : Loader W).
Local Open Scope py_scope.

(** A call to the host that issues no motion command. *)
Definition host_call {A} (f : W -> outcome A * W) : M W A :=
  fun w => let '(r, w1) := f w in (r, w1, []).

(** [OffsetProbe.__init__(self, config, mcu_probe)], lines 13-55. *)
Definition __init__ (config : ConfigWrapper) (mcu_probe : obj) : M W OffsetProbe :=
  let own := this_section config in
  probe_x <- lift_outcome (getfloat own "probe_x" 0 None) ;;
  probe_y <- lift_outcome (getfloat own "probe_y" 0 None) ;;
  tool_probe_z <- lift_outcome (getfloat own "reprobe_height" 1 (Some 0%Q)) ;;
  speed <- lift_outcome (getfloat own "speed" 5 (Some 0%Q)) ;;
  lift_speed <- lift_outcome (getfloat own "lift_speed" speed (Some 0%Q)) ;;
  lift_distance <- lift_outcome (getfloat own "lift_distance" 0.5 (Some 0%Q)) ;;
  move_speed <- lift_outcome (getfloat own "move_speed" 100 (Some 0%Q)) ;;
  gcode_move <- host_call (load_object L "gcode_move") ;;
  z_position <-
    (if has_section config "stepper_z"
     then
       let zconfig := getsection config "stepper_z" in
       lift_outcome (getfloat zconfig "position_min" 0 None)
     else
       let pconfig := getsection config "printer" in
       lift_outcome (getfloat pconfig "minimum_z_position" 0 None)) ;;
  gcode <- lookup_object K (RName "gcode") ;;
  host_call (register_command L "OFFSET_PROBE" cmd_OFFSET_PROBE_help) ;;
  gcode_macro <- lookup_object K (RName "gcode_macro") ;;
  start_gcode <- host_call (load_template L "start_gcode" "") ;;
  end_gcode <- host_call (load_template L "end_gcode" "") ;;
  toolchange_gcode_0 <- host_call (load_template L "toolchange_gcode_0" "") ;;
  toolchange_gcode_1 <- host_call (load_template L "toolchange_gcode_1" "") ;;
  ret {| probe_x := probe_x; probe_y := probe_y; tool_probe_z := tool_probe_z;
         speed := speed; lift_speed := lift_speed;
         lift_distance := lift_distance; move_speed := move_speed;
         z_position := z_position;
         start_gcode := start_gcode; end_gcode := end_gcode;
         toolchange_gcode_0 := toolchange_gcode_0;
         toolchange_gcode_1 := toolchange_gcode_1 |}.

(** [load_config(config)], lines 172-174. *)
Definition load_config (config : ConfigWrapper) : M W OffsetProbe :=
  mcu_probe <- host_call (probe_endstop_wrapper L) ;;
  __init__ config mcu_probe.

End Construction.

(** ** Properties of a configuration used in the statements *)

(** The section returns either the default it was given or a value above
    the bound, as Klipper's [getfloat] does. *)
Definition section_honours_above (sec : ConfigSection) : Prop :=
  forall name default above v,
    getfloat sec name default (Some above) = Ok v ->
    v = default \/ (above < v)%Q.

(** The option is not set in the section: the default comes back. *)
Definition option_absent (sec : ConfigSection) (name : string) : Prop :=
  forall default above, getfloat sec name default above = Ok default.

(** The command object returns either the default it was given or a value
    above the bound. *)
Definition command_honours_above (gcmd : GCodeCommand) : Prop :=
  forall name default above v,
    get_float gcmd name default above = Ok v ->
    v = default \/ (above < v)%Q.

(** The section and option from which [__init__] reads the Z floor. *)
Definition floor_option (config : ConfigWrapper) : string * string :=
  if has_section config "stepper_z"
  then ("stepper_z", "position_min")
  else ("printer", "minimum_z_position").

(** ** A configuration file

    A concrete configuration: each section is a list of options with
    their values parsed as floats. *)

Definition section_of (options : list (string * Q)) : ConfigSection :=
  {| getfloat := fun name default above =>
       match assoc String.eqb name options with
       | None => Ok default
       | Some v =>
           match above with
           | Some a =>
               if Qle_bool v a
               then Raise (HostError (name ++ " must be above the bound"))
               else Ok v
           | None => Ok v
           end
       end |}.

Definition config_file (sections : list (string * list (string * Q)))
    (section : string) : ConfigWrapper :=
  let options_of name :=
    match assoc String.eqb name sections with
    | Some options => options
    | None => []
    end in
  {| this_section := section_of (options_of section);
     has_section := fun name =>
       match assoc String.eqb name sections with
       | Some _ => true
       | None => false
       end;
     getsection := fun name => section_of (options_of name) |}.

(** A printer file with a Z stepper reaching down to -2 and an
    [offset_probe] section that sets the probe point and the speed. *)
Definition demo_config : ConfigWrapper :=
  config_file
    [("printer", [("minimum_z_position", (-1)%Q)]);
     ("stepper_z", [("position_min", (-2)%Q)]);
     ("offset_probe", [("probe_x", 10%Q); ("probe_y", 20%Q); ("speed", 8%Q)])]
    "offset_probe".

(** The same host with other G-code templates. *)
Definition with_run_gcode {W} (f : template -> W -> outcome unit * W)
    (K : Klipper W) : Klipper W :=
  {| objects := objects K;
     homed_axes := homed_axes K;
     get_position := get_position K;
     manual_move := manual_move K;
     probing_move := probing_move K;
     base_position := base_position K;
     run_gcode_from_command := f |}.

(** The two-tool host with a start script that calls an unknown command. *)
Definition broken_start_klipper : Klipper machine :=
  with_run_gcode
    (fun t m =>
       if String.eqb t "start_gcode"
       then (Raise (CommandError "Unknown command"), m)
       else machine_run_gcode t m)
    demo_klipper.

(** The two-tool host with the G-code dispatcher and the macro loader
    registered. *)
Definition full_klipper : Klipper machine :=
  with_objects
    (objects demo_klipper ++
     [(RName "gcode", 4%nat); (RName "gcode_macro", 5%nat)])%list
    demo_klipper.

(** The instance [load_config] builds from [demo_config]. *)
Definition demo_instance : OffsetProbe :=
  {| probe_x := 10; probe_y := 20; tool_probe_z := 1;
     speed := 8; lift_speed := 8; lift_distance := 0.5; move_speed := 100;
     z_position := (-2)%Q;
     start_gcode := "start_gcode"; end_gcode := "end_gcode";
     toolchange_gcode_0 := "toolchange_gcode_0";
     toolchange_gcode_1 := "toolchange_gcode_1" |}.

Definition demo_loader : Loader machine :=
  {| probe_endstop_wrapper := fun m => (Ok 6%nat, m);
     load_object := fun _ m => (Ok 3%nat, m);
     register_command := fun _ _ m => (Ok tt, m);
     load_template := fun option _ m => (Ok option, m) |}.

(** * Properties *)

(** ** Formatting and rounding on examples *)

Example py_round_half : py_round (1 # 2) = 0. Proof. reflexivity. Qed.
Example py_round_3half : py_round (3 # 2) = 2. Proof. reflexivity. Qed.
Example py_round_neg : py_round (- (7 # 4)) = -2. Proof. reflexivity. Qed.
Example format_f6_012 : format_f6 (0.62 - 0.5)%Q = "0.120000". Proof. reflexivity. Qed.
Example format_f6_neg : format_f6 (- (1 # 8)) = "-0.125000". Proof. reflexivity. Qed.
Example format_f6_tie : format_f6 (1 # 128) = "0.007812". Proof. reflexivity. Qed.
Example format_d_12 : format_d 12 = "12". Proof. reflexivity. Qed.

(** ** Arithmetic of [round] *)

Lemma py_round_above_half (x : Q) : (1 # 2 < x)%Q -> 0 < py_round x.
Proof.
  destruct x as [n d]. unfold Qlt, py_round. cbn [Qnum Qden].
  intros H.
  assert (Hd : 0 < Z.pos d) by lia.
  pose proof (Z.div_mod n (Z.pos d) ltac:(lia)) as E.
  pose proof (Z.mod_pos_bound n (Z.pos d) Hd) as B.
  assert (Hf : 0 <= n / Z.pos d) by (apply Z.div_pos; lia).
  destruct (Z.compare_spec (2 * (n mod Z.pos d)) (Z.pos d)) as [C|C|C].
  - destruct (Z.even (n / Z.pos d)) eqn:Ev; [|lia].
    destruct (Z.eq_dec (n / Z.pos d) 0) as [Z0|]; [|lia].
    rewrite Z0 in E. lia.
  - destruct (Z.eq_dec (n / Z.pos d) 0) as [Z0|]; [|lia].
    rewrite Z0 in E. lia.
  - lia.
Qed.

Lemma half_above_half (s : Q) : (1 < s)%Q -> (1 # 2 < s / 2)%Q.
Proof.
  destruct s as [n d]. unfold Qlt, Qdiv, Qmult, Qinv. cbn. lia.
Qed.

(** ** The monad *)

Section MonadFacts.

Context {W : Type}.

Lemma bind_result {A B} (m : M W A) (k : A -> M W B) (w : W) :
  result_of (bind m k w) =
  match result_of (m w) with
  | Ok a => result_of (k a (world_of (m w)))
  | Raise e => Raise e
  end.
Proof.
  unfold bind, result_of, world_of.
  destruct (m w) as [[[a|e] w1] l1]; cbn; [|reflexivity].
  destruct (k a w1) as [[r w2] l2]; reflexivity.
Qed.

Lemma bind_events {A B} (m : M W A) (k : A -> M W B) (w : W) :
  events_of (bind m k w) =
  (events_of (m w) ++
   match result_of (m w) with
   | Ok a => events_of (k a (world_of (m w)))
   | Raise _ => []
   end)%list.
Proof.
  unfold bind, result_of, world_of, events_of.
  destruct (m w) as [[[a|e] w1] l1]; cbn; [|now rewrite app_nil_r].
  destruct (k a w1) as [[r w2] l2]; reflexivity.
Qed.

Lemma bind_world {A B} (m : M W A) (k : A -> M W B) (w : W) :
  world_of (bind m k w) =
  match result_of (m w) with
  | Ok a => world_of (k a (world_of (m w)))
  | Raise _ => world_of (m w)
  end.
Proof.
  unfold bind, result_of, world_of.
  destruct (m w) as [[[a|e] w1] l1]; cbn; [|reflexivity].
  destruct (k a w1) as [[r w2] l2]; reflexivity.
Qed.

Lemma run_eta {A} (r : outcome A * W * list event) :
  r = (result_of r, world_of r, events_of r).
Proof. destruct r as [[? ?] ?]; reflexivity. Qed.

End MonadFacts.

(** ** The registry *)

Lemma names_only_no_handle (d : list (pyref * obj)) (o : obj) :
  names_only d = true -> assoc pyref_eqb (RObj o) d = None.
Proof.
  induction d as [|[k v] d IH]; cbn; [reflexivity|].
  intros H. apply andb_prop in H as [Hk Hd].
  destruct k; cbn in *; try discriminate. now apply IH.
Qed.

Lemma names_only_no_int (d : list (pyref * obj)) (n : Z) :
  names_only d = true -> assoc pyref_eqb (RInt n) d = None.
Proof.
  induction d as [|[k v] d IH]; cbn; [reflexivity|].
  intros H. apply andb_prop in H as [Hk Hd].
  destruct k; cbn in *; try discriminate. now apply IH.
Qed.

(** ** The commands issued by each method *)

Section MethodFacts.

Context {W : Type} (K : Klipper W).

Ltac run_step :=
  match goal with
  | |- context [match ?x with _ => _ end] =>
      lazymatch x with
      | context [match _ with _ => _ end] => fail
      | _ => destruct x eqn:?
      end
  end; cbn.

Ltac run_methods :=
  unfold bind, lookup_object, call_homed_axes, call_get_position,
    call_manual_move, call_probing_move, call_run_gcode, read_base_position,
    respond_info, try_except_command_error, lift_outcome, setitem, getitem,
    raise, ret, result_of, world_of, events_of;
  cbn.

(** [_ensure_homed] issues nothing and leaves the machine as it is. *)
Lemma ensure_homed_silent (w : W) :
  world_of (_ensure_homed K w) = w /\ events_of (_ensure_homed K w) = [].
Proof.
  unfold _ensure_homed. run_methods. repeat run_step; auto.
Qed.

(** [_probe] issues at most one command, the probing move at the speed it
    was given; it raises when it issues none. *)
Lemma probe_events (self : OffsetProbe) (v : Q) (key : pyref) (w : W) :
  (events_of (_probe K self v key w) = [] /\
   exists e, result_of (_probe K self v key w) = Raise e) \/
  exists p, events_of (_probe K self v key w) = [EvProbingMove p v].
Proof.
  unfold _probe, _ensure_homed. run_methods. repeat run_step; eauto.
Qed.

(** [_lift_between_probes] issues at most one command, a move at the
    configured lift speed; it raises when it issues none. *)
Lemma lift_events (self : OffsetProbe) (key : pyref) (dist : option Q) (w : W) :
  (events_of (_lift_between_probes K self key dist w) = [] /\
   exists e, result_of (_lift_between_probes K self key dist w) = Raise e) \/
  exists th c,
    events_of (_lift_between_probes K self key dist w) =
    [EvManualMove th c (lift_speed self)].
Proof.
  unfold _lift_between_probes. run_methods. repeat run_step; eauto.
Qed.

(** The commands of [_accurate_probe] are an initial segment of: a probing
    move at the given speed, a lift, a probing move at [round(speed / 2)];
    all three are there when it returns. *)
Lemma accurate_probe_events (self : OffsetProbe) (v : Q) (key : pyref) (w : W) :
  exists p1 th c p2 rest,
    [EvProbingMove p1 v; EvManualMove th c (lift_speed self);
     EvProbingMove p2 (inject_Z (py_round (v / 2)))] =
    (events_of (_accurate_probe K self v key w) ++ rest)%list /\
    (forall z, result_of (_accurate_probe K self v key w) = Ok z -> rest = []).
Proof.
  pose (d := [0%Q]). pose (t := 0%nat). pose (c := @nil (option Q)).
  unfold _accurate_probe.
  rewrite bind_events, bind_result.
  assert (events_of (lookup_object K key w) = []) as ->
    by (unfold lookup_object, events_of; run_step; reflexivity).
  cbn [app].
  destruct (result_of (lookup_object K key w)) as [th|e].
  2:{ exists d, t, c, d; eexists; split; [reflexivity|discriminate]. }
  set (w1 := world_of (lookup_object K key w)).
  rewrite bind_events, bind_result.
  destruct (probe_events self v (RObj th) w1) as [[E1 [e1 R1]]|[p1 E1]];
    rewrite E1.
  { rewrite R1. exists d, t, c, d; eexists; split; [reflexivity|discriminate]. }
  destruct (result_of (_probe K self v (RObj th) w1)) as [z1|e1].
  2:{ exists p1, t, c, d; eexists; split; [reflexivity|discriminate]. }
  set (w2 := world_of (_probe K self v (RObj th) w1)).
  cbv zeta. rewrite bind_events, bind_result.
  destruct (lift_events self (RInt 2) None w2) as [[E2 [e2 R2]]|[th2 [c2 E2]]];
    rewrite E2.
  { rewrite R2. exists p1, t, c, d; eexists; split; [reflexivity|discriminate]. }
  destruct (result_of (_lift_between_probes K self (RInt 2) None w2)) as [[]|e2].
  2:{ exists p1, th2, c2, d; eexists; split; [reflexivity|discriminate]. }
  set (w3 := world_of (_lift_between_probes K self (RInt 2) None w2)).
  rewrite bind_events, bind_result.
  destruct (probe_events self (inject_Z (py_round (v / 2))) (RObj th) w3)
    as [[E3 [e3 R3]]|[p3 E3]]; rewrite E3.
  { rewrite R3. exists p1, th2, c2, d; eexists; split; [reflexivity|discriminate]. }
  exists p1, th2, c2, p3, [].
  split; [|reflexivity].
  destruct (result_of (_probe K self (inject_Z (py_round (v / 2))) (RObj th) w3));
    reflexivity.
Qed.

(** When [_accurate_probe] returns, its value is the one returned by the
    second call of [_probe], made at the reprobe speed. *)
Lemma accurate_probe_returns_reprobe (self : OffsetProbe) (v : Q) (key : pyref)
    (w : W) (z : Q) :
  result_of (_accurate_probe K self v key w) = Ok z ->
  exists th w3,
    result_of (_probe K self (inject_Z (py_round (v / 2))) (RObj th) w3) = Ok z.
Proof.
  unfold _accurate_probe.
  rewrite bind_result.
  destruct (result_of (lookup_object K key w)) as [th|]; [|discriminate].
  rewrite bind_result.
  destruct (result_of (_probe K self v (RObj th) _)) as [z1|]; [|discriminate].
  cbv zeta. rewrite bind_result.
  destruct (result_of (_lift_between_probes K self (RInt 2) None _)) as [[]|];
    [|discriminate].
  rewrite bind_result.
  destruct (result_of (_probe K self (inject_Z (py_round (v / 2))) (RObj th) _))
    as [z2|] eqn:E; [|discriminate].
  cbn. intros [= <-]. eauto.
Qed.

(** The cycle of tool 0 stops at line 136: it runs the toolchange script
    and raises, whatever the host. *)
Lemma probe_tool_0_raises (self : OffsetProbe) (gcmd : GCodeCommand)
    (th : obj) (w : W) :
  (exists e, result_of (probe_tool_0 K self gcmd th w) = Raise e) /\
  events_of (probe_tool_0 K self gcmd th w) = [EvRunGcode (toolchange_gcode_0 self)].
Proof.
  unfold probe_tool_0. run_methods. repeat run_step; eauto.
Qed.

(** A probing move is only issued on a machine whose Z axis the toolhead
    reported as homed when [_probe] was entered. *)
Lemma probing_move_requires_homed (self : OffsetProbe) (v : Q) (key : pyref)
    (w : W) :
  existsb is_probing_move (events_of (_probe K self v key w)) = true ->
  exists th,
    assoc pyref_eqb (RName "toolhead") (objects K) = Some th /\
    py_in "z" (homed_axes K w th) = true.
Proof.
  unfold _probe, _ensure_homed. run_methods.
  repeat run_step; try discriminate; intros _; eexists; split;
    try reflexivity; now apply negb_false_iff.
Qed.

(** The cycle of tool 1 moves to the resolved target: the probe point and
    the current Z, each translated by the active offset frame. *)
Lemma tool_1_target_resolved (self : OffsetProbe) (gcmd : GCodeCommand)
    (base_z : Q) (offsets : list Q) (w w1 : W) (th : obj)
    (x y z dx dy dz : Q) (rest frame_rest : list Q) :
  assoc pyref_eqb (RName "toolhead1") (objects K) = Some th ->
  run_gcode_from_command K (toolchange_gcode_1 self) w = (Ok tt, w1) ->
  get_position K w1 th = x :: y :: z :: rest ->
  base_position K w1 = dx :: dy :: dz :: frame_rest ->
  exists tail,
    events_of (probe_tool_1 K self gcmd base_z offsets w) =
    EvRunGcode (toolchange_gcode_1 self)
    :: EvManualMove th
         (Some (probe_x self + dx)%Q :: Some (probe_y self + dy)%Q
          :: Some (z + dz)%Q :: map Some rest)
         (move_speed self)
    :: tail.
Proof.
  intros Hth Hrun Hpos Hframe.
  unfold probe_tool_1, _get_gcode_position. run_methods.
  rewrite Hth, Hrun. cbn. rewrite Hpos. cbn. rewrite Hframe. cbn.
  repeat run_step; eexists; reflexivity.
Qed.

(** Line 158: when the cycle of tool 1 returns, it has appended one
    offset, the measurement of tool 1 minus [base_z] as it stands. *)
Lemma tool_1_offset_recorded (self : OffsetProbe) (gcmd : GCodeCommand)
    (base_z : Q) (offsets offs : list Q) (w : W) :
  result_of (probe_tool_1 K self gcmd base_z offsets w) = Ok offs ->
  exists th w1 z,
    result_of (_accurate_probe K self (speed self) (RObj th) w1) = Ok z /\
    offs = (offsets ++ [(z - base_z)%Q])%list.
Proof.
  unfold probe_tool_1.
  rewrite bind_result.
  destruct (result_of (lookup_object K (RName "toolhead1") w)) as [th|];
    [|discriminate].
  cbv zeta.
  repeat (rewrite bind_result;
          match goal with
          | |- context [match result_of ?m with _ => _ end] =>
              destruct (result_of m) as [?|?] eqn:?; [|discriminate]
          end).
  match goal with
  | x : (option Q * option Q * option Q)%type |- _ => destruct x as [[? ?] ?]
  end.
  repeat (rewrite bind_result;
          match goal with
          | |- context [match result_of ?m with _ => _ end] =>
              destruct (result_of m) as [?|?] eqn:?; [|discriminate]
          end).
  intros E. injection E as <-.
  eauto.
Qed.

End MethodFacts.

(** ** Substrings *)

Lemma prefix_app (s t : string) : String.prefix s (s ++ t) = true.
Proof.
  induction s as [|a s IH]; cbn.
  - now destruct t.
  - destruct (ascii_dec a a) as [_|N]; [exact IH|now destruct N].
Qed.

Lemma py_contains_prefix (s t : string) :
  String.prefix s t = true -> py_contains s t = true.
Proof. intros H. destruct t; cbn [py_contains]; now rewrite H. Qed.

Lemma py_contains_refl (s : string) : py_contains s s = true.
Proof.
  apply py_contains_prefix.
  assert (E : s ++ "" = s)
    by (induction s as [|a s IH]; cbn; [reflexivity|now rewrite IH]).
  pose proof (prefix_app s "") as H.
  now rewrite E in H.
Qed.

Lemma py_contains_app_l (s t : string) : py_contains s (s ++ t) = true.
Proof. apply py_contains_prefix, prefix_app. Qed.

Lemma py_contains_app_r (s t : string) : py_contains t (s ++ t) = true.
Proof.
  induction s as [|a s IH]; cbn [append].
  - apply py_contains_refl.
  - cbn [py_contains]. rewrite IH. now destruct (String.prefix t (String a (s ++ t))).
Qed.

Lemma offset_strs_first (o : Q) (rest : list Q) :
  offset_strs 0 (o :: rest) = ("T0=" ++ format_f6 o) :: offset_strs 1 rest.
Proof. reflexivity. Qed.

(** * The calibration command *)

(** C2.  The claim: for every non-reference tool the command records and
    reports exactly [z_i - z_0].  The code: on every host, with every
    configuration and every command line, [cmd_OFFSET_PROBE] raises; the
    only commands it issues are script runs.  No offset is ever recorded or
    reported. *)
Theorem cmd_OFFSET_PROBE_never_returns
    (W : Type) (K : Klipper W) (self : OffsetProbe) (gcmd : GCodeCommand) (w : W) :
  (exists e, result_of (cmd_OFFSET_PROBE K self gcmd w) = Raise e) /\
  forallb is_run_gcode (events_of (cmd_OFFSET_PROBE K self gcmd w)) = true.
Proof.
  unfold cmd_OFFSET_PROBE.
  rewrite bind_result, bind_events.
  assert (Hs : events_of (call_run_gcode K (start_gcode self) w) =
               [EvRunGcode (start_gcode self)])
    by (unfold call_run_gcode, events_of;
        now destruct (run_gcode_from_command K (start_gcode self) w)).
  rewrite Hs.
  destruct (result_of (call_run_gcode K (start_gcode self) w)) as [[]|e0];
    [|split; [eauto|reflexivity]].
  set (w1 := world_of (call_run_gcode K (start_gcode self) w)).
  rewrite bind_result, bind_events.
  assert (Hl : events_of (lookup_object K (RName "toolhead") w1) = [])
    by (unfold lookup_object, events_of;
        now destruct (assoc pyref_eqb (RName "toolhead") (objects K))).
  rewrite Hl.
  destruct (result_of (lookup_object K (RName "toolhead") w1)) as [th|e1];
    [|split; [eauto|reflexivity]].
  set (w2 := world_of (lookup_object K (RName "toolhead") w1)).
  cbv zeta. rewrite bind_result, bind_events.
  destruct (probe_tool_0_raises K self gcmd th w2) as [[e He] Hev].
  rewrite He, Hev. split; [eauto|reflexivity].
Qed.

(** C7.  The claim: for every tool the probe target is passed through the
    coordinate resolver before the move.  The code: the cycle of tool 0
    does not depend on the offset frame at all, issues no move and raises
    while building the target (line 136); only the cycle of tool 1 calls
    the resolver ([tool_1_target_resolved]). *)
Theorem tool_0_target_not_resolved
    (W : Type) (K : Klipper W) (self : OffsetProbe) (gcmd : GCodeCommand)
    (th : obj) (w : W) (frame : W -> list Q) :
  probe_tool_0 (with_base_position frame K) self gcmd th w =
    probe_tool_0 K self gcmd th w /\
  (exists e, result_of (probe_tool_0 K self gcmd th w) = Raise e) /\
  existsb is_manual_move (events_of (probe_tool_0 K self gcmd th w)) = false.
Proof.
  destruct (probe_tool_0_raises K self gcmd th w) as [He Hev].
  split; [|split; [exact He|now rewrite Hev]].
  rewrite (run_eta (probe_tool_0 K self gcmd th w)).
  rewrite (run_eta (probe_tool_0 (with_base_position frame K) self gcmd th w)).
  unfold probe_tool_0, bind, call_run_gcode, call_get_position, lift_outcome,
    getitem, result_of, world_of, events_of.
  cbn.
  destruct (run_gcode_from_command K (toolchange_gcode_0 self) w) as [[[]|e] w1];
    cbn; [|reflexivity].
  destruct (nth_error (get_position K w1 th) 2); reflexivity.
Qed.

(** C1.  The claim: one line ['Tool <i>: <z>'] per tool and, in the
    two-tool scenario measuring 0.5 and 0.62, the summary
    ['Offsets: T1=0.120000'].  The code, on that scenario: the command
    raises [TypeError] after the toolchange script of tool 0 and emits no
    line; the statements of tool 1, run on a host that resolves handles,
    emit ['Tool 0: 0.620000']; the summary statements label the offset of
    tool 1 as [T0]. *)
Theorem offset_probe_scenario_output :
  result_of (cmd_OFFSET_PROBE demo_klipper demo_probe gcmd_plain demo_machine)
    = Raise TypeError /\
  events_of (cmd_OFFSET_PROBE demo_klipper demo_probe gcmd_plain demo_machine)
    = [EvRunGcode "start_gcode"; EvRunGcode "toolchange_gcode_0"] /\
  filter is_respond_info
    (events_of (probe_tool_1 handle_klipper demo_probe gcmd_plain 0.5 [] demo_machine))
    = [EvRespondInfo "Tool 0: 0.620000"] /\
  filter is_respond_info
    (events_of (report_offsets demo_klipper demo_probe gcmd_plain
                  [(0.62 - 0.5)%Q] demo_machine))
    = [EvRespondInfo "Offsets: T0=0.120000"].
Proof. repeat split; vm_compute; reflexivity. Qed.

(** C9.  The claim: with [LIFT_SPEED] on the command line the lifts of the
    run use the overridden speed.  The code: [get_lift_speed] reads the
    override but nothing calls it; the command behaves the same with and
    without arguments, and every lift runs at the configured
    [lift_speed], here 5 where the override asks for 10. *)
Theorem lift_speed_override_ignored
    (W : Type) (K : Klipper W) (self : OffsetProbe) (gcmd : GCodeCommand)
    (key : pyref) (dist : option Q) (w : W) :
  cmd_OFFSET_PROBE K self gcmd w = cmd_OFFSET_PROBE K self gcmd_plain w /\
  Forall (fun ev => exists th c, ev = EvManualMove th c (lift_speed self))
    (events_of (_lift_between_probes K self key dist w)) /\
  get_lift_speed demo_probe (Some gcmd_lift_10) = Ok 10%Q /\
  exists c,
    events_of (_lift_between_probes demo_klipper demo_probe (RName "toolhead")
                 None demo_machine)
    = [EvManualMove 0%nat c 5%Q].
Proof.
  split; [reflexivity|]. split.
  - destruct (lift_events K self key dist w) as [[E _]|[th [c E]]]; rewrite E.
    + constructor.
    + constructor; [eauto|constructor].
  - split; [reflexivity|]. eexists. vm_compute. reflexivity.
Qed.

(** * Probing *)

(** C3.  The claim: [_accurate_probe] performs two probing moves with one
    lift between them and returns the second measurement.  The code: it
    hands the object it has just looked up to [_probe], which looks it up
    again, and lifts the toolhead [2]; on a registry keyed by names, as
    Klipper's is, it raises before any probing move or lift. *)
Theorem accurate_probe_fails_on_named_registry
    (W : Type) (K : Klipper W) (self : OffsetProbe) (v : Q) (key : pyref) (w : W) :
  names_only (objects K) = true ->
  (exists e, result_of (_accurate_probe K self v key w) = Raise e) /\
  events_of (_accurate_probe K self v key w) = [].
Proof.
  intros Hn.
  unfold _accurate_probe, _probe, _ensure_homed.
  unfold bind, lookup_object, call_homed_axes, raise, ret, result_of, events_of.
  cbn.
  destruct (assoc pyref_eqb key (objects K)) as [th|]; cbn; [|eauto].
  destruct (assoc pyref_eqb (RName "toolhead") (objects K)) as [t|]; cbn; [|eauto].
  destruct (negb (py_in "z" (homed_axes K w t))); cbn; [eauto|].
  rewrite (names_only_no_handle _ th Hn). cbn. eauto.
Qed.

Lemma accurate_probe_fails_on_named_registry_witness :
  (exists e, result_of (_accurate_probe demo_klipper demo_probe 5
                          (RName "toolhead") demo_machine) = Raise e) /\
  events_of (_accurate_probe demo_klipper demo_probe 5
               (RName "toolhead") demo_machine) = [].
Proof.
  apply (accurate_probe_fails_on_named_registry machine demo_klipper demo_probe
           5 (RName "toolhead") demo_machine).
  reflexivity.
Defined.

(** The run of [_accurate_probe] in which every step succeeds: the
    toolhead is looked up, [_probe] resolves the handle it is given and
    probes at [s], the lift resolves its key and moves, [_probe] probes
    again at [round(s / 2)]; the value returned is the second trigger
    height. *)
Lemma accurate_probe_run
    (W : Type) (K : Klipper W) (self : OffsetProbe) (s : Q) (key : pyref)
    (w w1 w2 w3 : W) (t h th th1 th2 : obj)
    (x1 y1 z1 a1 lx ly lz x2 y2 z2 a2 : Q) (r1 e1 lr r2 e2 : list Q) :
  assoc pyref_eqb (RName "toolhead") (objects K) = Some t ->
  assoc pyref_eqb (RName "homing") (objects K) = Some h ->
  assoc pyref_eqb key (objects K) = Some th ->
  assoc pyref_eqb (RObj th) (objects K) = Some th1 ->
  assoc pyref_eqb (RInt 2) (objects K) = Some th2 ->
  py_in "z" (homed_axes K w t) = true ->
  get_position K w th1 = x1 :: y1 :: z1 :: r1 ->
  probing_move K h (x1 :: y1 :: z_position self :: r1) s w = (Ok e1, w1) ->
  nth_error e1 2 = Some a1 ->
  get_position K w1 th2 = lx :: ly :: lz :: lr ->
  manual_move K th2
    (Some lx :: Some ly :: Some (lz + lift_distance self)%Q :: map Some lr)
    (lift_speed self) w1 = (Ok tt, w2) ->
  py_in "z" (homed_axes K w2 t) = true ->
  get_position K w2 th1 = x2 :: y2 :: z2 :: r2 ->
  probing_move K h (x2 :: y2 :: z_position self :: r2)
    (inject_Z (py_round (s / 2))) w2 = (Ok e2, w3) ->
  nth_error e2 2 = Some a2 ->
  _accurate_probe K self s key w =
    (Ok a2, w3,
     [EvProbingMove (x1 :: y1 :: z_position self :: r1) s;
      EvManualMove th2
        (Some lx :: Some ly :: Some (lz + lift_distance self)%Q :: map Some lr)
        (lift_speed self);
      EvProbingMove (x2 :: y2 :: z_position self :: r2)
        (inject_Z (py_round (s / 2)))]).
Proof.
  intros Ht Hh Hk Ho H2 Hz0 Hp1 Hm1 Ha1 Hlp Hlm Hz2 Hp2 Hm2 Ha2.
  unfold _accurate_probe, _probe, _ensure_homed, _lift_between_probes, bind,
    lookup_object, call_homed_axes, call_get_position, call_probing_move,
    call_manual_move, try_except_command_error, lift_outcome, setitem,
    getitem, raise, ret.
  cbn in Ha1, Ha2.
  rewrite Hk. cbn. rewrite Ht. cbn. rewrite Hz0. cbn. rewrite Ho, Hh. cbn.
  rewrite Hp1. cbn. rewrite Hm1. rewrite Ha1. cbn.
  rewrite H2. cbn. rewrite Hlp. cbn. rewrite Hlm. cbn.
  rewrite Hz2. cbn. rewrite Hp2. cbn. rewrite Hm2. rewrite Ha2.
  reflexivity.
Qed.

(** C4, as the code has it.  At speed 1 the reprobe speed is
    [round(0.5) = 0], which is not strictly positive: on every host the
    commands of [_accurate_probe] at speed 1 are an initial segment of
    probing move at 1, lift, probing move at speed 0, and they are all
    three there when the call returns. *)
Lemma reprobe_speed_zero_at_speed_one :
  (1 <= 1)%Q /\
  ~ 0 < py_round (1 / 2) /\
  forall (W : Type) (K : Klipper W) (self : OffsetProbe) (key : pyref) (w : W),
  exists p1 th c p2 rest,
    [EvProbingMove p1 1; EvManualMove th c (lift_speed self);
     EvProbingMove p2 0] =
    (events_of (_accurate_probe K self 1 key w) ++ rest)%list /\
    (forall z, result_of (_accurate_probe K self 1 key w) = Ok z -> rest = []).
Proof.
  split; [discriminate|]. split; [vm_compute; discriminate|].
  intros W K self key w.
  exact (accurate_probe_events K self 1 key w).
Qed.

(** C4, amended.  For every speed [s] and every host: the commands of
    [_accurate_probe] are an initial segment of probing move at [s], lift,
    probing move at [round(s / 2)], where [round] rounds halves to even,
    and all three are there when the call returns; when every step
    succeeds the call issues exactly these three and returns the second
    trigger height; and [round(s / 2)] is strictly positive for every
    [s > 1]. *)
Theorem reprobe_speed_round_half_even
    (W : Type) (K : Klipper W) (self : OffsetProbe) (s : Q) (key : pyref) (w : W) :
  (exists p1 th c p2 rest,
     [EvProbingMove p1 s; EvManualMove th c (lift_speed self);
      EvProbingMove p2 (inject_Z (py_round (s / 2)))] =
     (events_of (_accurate_probe K self s key w) ++ rest)%list /\
     (forall z, result_of (_accurate_probe K self s key w) = Ok z -> rest = [])) /\
  (forall (w1 w2 w3 : W) (t h th th1 th2 : obj)
          (x1 y1 z1 a1 lx ly lz x2 y2 z2 a2 : Q) (r1 e1 lr r2 e2 : list Q),
     assoc pyref_eqb (RName "toolhead") (objects K) = Some t ->
     assoc pyref_eqb (RName "homing") (objects K) = Some h ->
     assoc pyref_eqb key (objects K) = Some th ->
     assoc pyref_eqb (RObj th) (objects K) = Some th1 ->
     assoc pyref_eqb (RInt 2) (objects K) = Some th2 ->
     py_in "z" (homed_axes K w t) = true ->
     get_position K w th1 = x1 :: y1 :: z1 :: r1 ->
     probing_move K h (x1 :: y1 :: z_position self :: r1) s w = (Ok e1, w1) ->
     nth_error e1 2 = Some a1 ->
     get_position K w1 th2 = lx :: ly :: lz :: lr ->
     manual_move K th2
       (Some lx :: Some ly :: Some (lz + lift_distance self)%Q :: map Some lr)
       (lift_speed self) w1 = (Ok tt, w2) ->
     py_in "z" (homed_axes K w2 t) = true ->
     get_position K w2 th1 = x2 :: y2 :: z2 :: r2 ->
     probing_move K h (x2 :: y2 :: z_position self :: r2)
       (inject_Z (py_round (s / 2))) w2 = (Ok e2, w3) ->
     nth_error e2 2 = Some a2 ->
     _accurate_probe K self s key w =
       (Ok a2, w3,
        [EvProbingMove (x1 :: y1 :: z_position self :: r1) s;
         EvManualMove th2
           (Some lx :: Some ly :: Some (lz + lift_distance self)%Q :: map Some lr)
           (lift_speed self);
         EvProbingMove (x2 :: y2 :: z_position self :: r2)
           (inject_Z (py_round (s / 2)))])) /\
  ((1 < s)%Q -> 0 < py_round (s / 2)).
Proof.
  split; [|split].
  - destruct (accurate_probe_events K self s key w)
      as (p1 & th & c & p2 & rest & E & R).
    now exists p1, th, c, p2, rest.
  - intros. eapply accurate_probe_run; eassumption.
  - intros Hs. apply py_round_above_half, half_above_half, Hs.
Qed.

Lemma reprobe_speed_round_half_even_witness :
  (exists w3,
     _accurate_probe handle_klipper demo_probe 5 (RName "toolhead") demo_machine =
       (Ok 0.5%Q, w3,
        [EvProbingMove [0; 0; 0; 0]%Q 5;
         EvManualMove 0%nat
           [Some 0%Q; Some 0%Q; Some (0.5 + 0.5)%Q; Some 0%Q] 5;
         EvProbingMove [0; 0; 0; 0]%Q (inject_Z (py_round (5 / 2)))])) /\
  0 < py_round (5 / 2).
Proof.
  split.
  - pose (w1 := set_pos 0%nat [0; 0; 0.5; 0]%Q demo_machine).
    pose (w2 := set_pos 0%nat [0; 0; 0.5 + 0.5; 0]%Q w1).
    exists (set_pos 0%nat [0; 0; 0.5; 0]%Q w2).
    apply (proj1 (proj2 (reprobe_speed_round_half_even machine handle_klipper
                           demo_probe 5 (RName "toolhead") demo_machine))
             w1 w2 (set_pos 0%nat [0; 0; 0.5; 0]%Q w2)
             0%nat 2%nat 0%nat 0%nat 0%nat
             0%Q 0%Q 10%Q 0.5%Q 0%Q 0%Q 0.5%Q 0%Q 0%Q (0.5 + 0.5)%Q 0.5%Q
             [0%Q] [0; 0; 0.5; 0]%Q [0%Q] [0%Q] [0; 0; 0.5; 0]%Q);
      reflexivity.
  - apply (proj2 (proj2 (reprobe_speed_round_half_even machine handle_klipper
                           demo_probe 5 (RName "toolhead") demo_machine))).
    reflexivity.
Defined.

(** C5.  When the toolhead does not report Z as homed, [_probe] raises the
    not-homed command error, leaves the machine untouched and issues no
    command, and so does [_accurate_probe]; and a probing move is only ever
    issued after the check has seen Z homed. *)
Theorem probe_blocked_when_not_homed
    (W : Type) (K : Klipper W) (self : OffsetProbe) (v : Q) (key : pyref)
    (w : W) (th : obj) :
  assoc pyref_eqb (RName "toolhead") (objects K) = Some th ->
  py_in "z" (homed_axes K w th) = false ->
  _probe K self v key w =
    (Raise (CommandError "Must home before offset probing"), w, []) /\
  (forall t, assoc pyref_eqb key (objects K) = Some t ->
     _accurate_probe K self v key w =
       (Raise (CommandError "Must home before offset probing"), w, [])) /\
  (forall v' key' w',
     existsb is_probing_move (events_of (_probe K self v' key' w')) = true ->
     exists th',
       assoc pyref_eqb (RName "toolhead") (objects K) = Some th' /\
       py_in "z" (homed_axes K w' th') = true).
Proof.
  intros Hth Hz.
  assert (Hp : forall k, _probe K self v k w =
            (Raise (CommandError "Must home before offset probing"), w, [])).
  { intros k. unfold _probe, _ensure_homed, bind, lookup_object,
      call_homed_axes, raise.
    rewrite Hth. cbn. rewrite Hz. reflexivity. }
  split; [apply Hp|]. split.
  - intros t Ht. unfold _accurate_probe, bind at 1, lookup_object at 1.
    rewrite Ht. cbn. unfold bind at 1. rewrite Hp. reflexivity.
  - intros v' key' w'. apply probing_move_requires_homed.
Qed.

Lemma probe_blocked_when_not_homed_witness :
  _probe demo_klipper demo_probe 5 (RName "toolhead") unhomed_machine =
    (Raise (CommandError "Must home before offset probing"), unhomed_machine, []) /\
  (forall t, assoc pyref_eqb (RName "toolhead") (objects demo_klipper) = Some t ->
     _accurate_probe demo_klipper demo_probe 5 (RName "toolhead") unhomed_machine =
       (Raise (CommandError "Must home before offset probing"), unhomed_machine, [])) /\
  (forall v' key' w',
     existsb is_probing_move
       (events_of (_probe demo_klipper demo_probe v' key' w')) = true ->
     exists th',
       assoc pyref_eqb (RName "toolhead") (objects demo_klipper) = Some th' /\
       py_in "z" (homed_axes demo_klipper w' th') = true).
Proof.
  apply (probe_blocked_when_not_homed machine demo_klipper demo_probe 5
           (RName "toolhead") unhomed_machine 0%nat); reflexivity.
Defined.

Lemma py_contains_app_skip (n s t : string) :
  py_contains n t = true -> py_contains n (s ++ t) = true.
Proof.
  intros H. induction s as [|a s IH]; cbn [append]; [exact H|].
  cbn [py_contains]. rewrite IH.
  now destruct (String.prefix n (String a (s ++ t))).
Qed.

(** C6.  When the probing move raises a command error whose text contains
    ["Timeout during endstop homing"], [_probe] raises a command error
    whose text is the original text followed by the hint: a line feed, then
    the three lines "If the probe did not move far enough to trigger,
    consider", "reducing the Z axis minimum position so the probe can
    travel further." and "The probe will not move further than the minimum
    Z position.", each ended by a line feed.  The surfaced text so contains
    the whole original text and the advice on the Z floor.  With any other
    text the command error carries the original text unchanged; any other
    exception passes through. *)
Theorem probe_timeout_hint
    (W : Type) (K : Klipper W) (self : OffsetProbe) (v : Q) (key : pyref)
    (w w1 : W) (t th h : obj) (pos : list Q) (e : exn) :
  assoc pyref_eqb (RName "toolhead") (objects K) = Some t ->
  py_in "z" (homed_axes K w t) = true ->
  assoc pyref_eqb key (objects K) = Some th ->
  assoc pyref_eqb (RName "homing") (objects K) = Some h ->
  setitem (get_position K w th) 2 (z_position self) = Ok pos ->
  probing_move K h pos v w = (Raise e, w1) ->
  (forall msg, e = CommandError msg ->
     py_contains "Timeout during endstop homing" msg = true ->
     result_of (_probe K self v key w) = Raise (CommandError (msg ++ HINT_TIMEOUT)) /\
     py_contains msg (msg ++ HINT_TIMEOUT) = true /\
     py_contains HINT_TIMEOUT (msg ++ HINT_TIMEOUT) = true /\
     result_of (_probe K self v key w) =
       Raise (CommandError
                (msg
                 ++ String (ascii_of_nat 10)
                      "If the probe did not move far enough to trigger, consider"
                 ++ String (ascii_of_nat 10)
                      "reducing the Z axis minimum position so the probe can travel further."
                 ++ String (ascii_of_nat 10)
                      "The probe will not move further than the minimum Z position."
                 ++ String (ascii_of_nat 10) "")) /\
     (forall surfaced,
        result_of (_probe K self v key w) = Raise (CommandError surfaced) ->
        py_contains msg surfaced = true /\
        py_contains
          "reducing the Z axis minimum position so the probe can travel further."
          surfaced = true /\
        py_contains
          "The probe will not move further than the minimum Z position."
          surfaced = true)) /\
  (forall msg, e = CommandError msg ->
     py_contains "Timeout during endstop homing" msg = false ->
     result_of (_probe K self v key w) = Raise (CommandError msg)) /\
  ((forall msg, e <> CommandError msg) ->
     result_of (_probe K self v key w) = Raise e).
Proof.
  intros Ht Hz Hth Hh Hpos Hmove.
  assert (R : result_of (_probe K self v key w) =
              Raise match e with
                    | CommandError msg =>
                        CommandError
                          (if py_contains "Timeout during endstop homing" msg
                           then msg ++ HINT_TIMEOUT else msg)
                    | other => other
                    end).
  { unfold _probe, _ensure_homed, bind, lookup_object, call_homed_axes,
      call_get_position, call_probing_move, try_except_command_error,
      lift_outcome, raise, ret, result_of.
    rewrite Ht. cbn. rewrite Hz. cbn. rewrite Hth, Hh. cbn.
    rewrite Hpos. cbn. rewrite Hmove.
    destruct e; reflexivity. }
  split; [|split].
  - intros msg -> Hc. rewrite R, Hc.
    split; [reflexivity|].
    split; [apply py_contains_app_l|].
    split; [apply py_contains_app_r|].
    split; [reflexivity|].
    intros surfaced [= <-].
    split; [apply py_contains_app_l|].
    split; apply py_contains_app_skip; reflexivity.
  - intros msg -> Hc. now rewrite R, Hc.
  - intros Hne. rewrite R. destruct e; try reflexivity. now destruct (Hne msg).
Qed.

Lemma probe_timeout_hint_witness :
  result_of (_probe demo_klipper high_floor_probe 5 (RName "toolhead") demo_machine) =
    Raise (CommandError
             ("Timeout during endstop homing"
              ++ String (ascii_of_nat 10)
                   "If the probe did not move far enough to trigger, consider"
              ++ String (ascii_of_nat 10)
                   "reducing the Z axis minimum position so the probe can travel further."
              ++ String (ascii_of_nat 10)
                   "The probe will not move further than the minimum Z position."
              ++ String (ascii_of_nat 10) "")).
Proof.
  refine (proj1 (proj2 (proj2 (proj2
            (proj1 (probe_timeout_hint machine demo_klipper high_floor_probe 5
               (RName "toolhead") demo_machine
               (set_pos 0%nat [0; 0; 1; 0]%Q demo_machine) 0%nat 0%nat 2%nat
               [0; 0; 1; 0]%Q (CommandError "Timeout during endstop homing")
               eq_refl eq_refl eq_refl eq_refl eq_refl eq_refl)
             "Timeout during endstop homing" eq_refl eq_refl))))).
Defined.

(** * Coordinates and lifts *)

(** C8.  Under a frame [dx, dy, dz, ...], [_get_gcode_position] returns
    each given axis translated by its frame component and each absent axis
    absent; it changes nothing and issues no command. *)
Theorem get_gcode_position_translates
    (W : Type) (K : Klipper W) (x y z : option Q) (w : W)
    (dx dy dz : Q) (rest : list Q) :
  base_position K w = dx :: dy :: dz :: rest ->
  _get_gcode_position K x y z w =
    (Ok (option_map (fun a => (a + dx)%Q) x,
         option_map (fun a => (a + dy)%Q) y,
         option_map (fun a => (a + dz)%Q) z), w, []).
Proof.
  intros Hf.
  unfold _get_gcode_position, bind, read_base_position, lift_outcome, getitem, ret.
  rewrite Hf.
  destruct x, y, z; reflexivity.
Qed.

Lemma get_gcode_position_translates_witness :
  _get_gcode_position demo_klipper (Some 10%Q) None (Some 3%Q)
    (set_active 1 demo_machine) =
    (Ok (Some (10 + 1)%Q, None, Some (3 + 0.25)%Q), set_active 1 demo_machine, []).
Proof.
  apply (get_gcode_position_translates machine demo_klipper (Some 10%Q) None
           (Some 3%Q) (set_active 1 demo_machine) 1 2 0.25 [0%Q]).
  reflexivity.
Defined.

(** C10.  A lift of a toolhead at [x, y, z, e...] commands the position
    [x, y, z + dist, e...], where [dist] is the configured [lift_distance]
    when none is given: X, Y and the extruder components are those of the
    current pose. *)
Theorem lift_between_probes_target
    (W : Type) (K : Klipper W) (self : OffsetProbe) (key : pyref)
    (dist : option Q) (w : W) (th : obj) (x y z : Q) (rest : list Q) :
  assoc pyref_eqb key (objects K) = Some th ->
  get_position K w th = x :: y :: z :: rest ->
  events_of (_lift_between_probes K self key dist w) =
    [EvManualMove th
       (Some x :: Some y
        :: Some (z + match dist with
                     | None => lift_distance self
                     | Some d => d
                     end)%Q
        :: map Some rest)
       (lift_speed self)].
Proof.
  intros Hth Hpos.
  unfold _lift_between_probes, bind, lookup_object, call_get_position,
    call_manual_move, lift_outcome, getitem, setitem, events_of.
  rewrite Hth. cbn. rewrite Hpos. cbn.
  destruct (manual_move K th _ (lift_speed self) w) as [r w1].
  reflexivity.
Qed.

Lemma lift_between_probes_target_witness :
  events_of (_lift_between_probes demo_klipper demo_probe (RName "toolhead1")
               None demo_machine) =
    [EvManualMove 1%nat [Some 0%Q; Some 0%Q; Some (10 + 0.5)%Q; Some 0%Q] 5%Q].
Proof.
  apply (lift_between_probes_target machine demo_klipper demo_probe
           (RName "toolhead1") None demo_machine 1%nat 0 0 10 [0%Q]);
    reflexivity.
Defined.

(** * Further properties *)

Ltac case_step :=
  match goal with
  | |- context [match ?x with _ => _ end] =>
      lazymatch x with
      | context [match _ with _ => _ end] => fail
      | _ => destruct x eqn:?
      end
  end; cbn.

(** ** Construction *)

Section ConstructionFacts.

Context {W : Type} (K : Klipper W) (L : Loader W).

(** What a successful construction has read from the configuration. *)
Lemma init_fields (config : ConfigWrapper) (mcu_probe : obj) (w : W)
    (self : OffsetProbe) :
  result_of (__init__ K L config mcu_probe w) = Ok self ->
  let own := this_section config in
  getfloat own "reprobe_height" 1 (Some 0%Q) = Ok (tool_probe_z self) /\
  getfloat own "speed" 5 (Some 0%Q) = Ok (speed self) /\
  getfloat own "lift_speed" (speed self) (Some 0%Q) = Ok (lift_speed self) /\
  getfloat own "lift_distance" 0.5 (Some 0%Q) = Ok (lift_distance self) /\
  getfloat own "move_speed" 100 (Some 0%Q) = Ok (move_speed self) /\
  getfloat (getsection config (fst (floor_option config)))
    (snd (floor_option config)) 0 None = Ok (z_position self).
Proof.
  unfold __init__, floor_option, bind, lift_outcome, host_call, lookup_object,
    ret, result_of.
  cbn.
  repeat case_step; try discriminate;
    intros [= <-]; cbn; repeat split; assumption.
Qed.

Lemma load_config_init (config : ConfigWrapper) (w : W) (self : OffsetProbe) :
  result_of (load_config K L config w) = Ok self ->
  exists mcu_probe w1, result_of (__init__ K L config mcu_probe w1) = Ok self.
Proof.
  unfold load_config. rewrite bind_result.
  destruct (result_of (host_call (probe_endstop_wrapper L) w)) as [mcu|];
    [|discriminate].
  eauto.
Qed.

(** The positivity invariant of a constructed instance. *)
Lemma constructed_positive (config : ConfigWrapper) (w : W) (self : OffsetProbe) :
  section_honours_above (this_section config) ->
  result_of (load_config K L config w) = Ok self ->
  (0 < tool_probe_z self)%Q /\ (0 < speed self)%Q /\ (0 < lift_speed self)%Q /\
  (0 < lift_distance self)%Q /\ (0 < move_speed self)%Q.
Proof.
  intros Hab Hok.
  destruct (load_config_init config w self Hok) as (mcu & w1 & Hi).
  destruct (init_fields config mcu w1 self Hi)
    as (Hz & Hs & Hl & Hd & Hm & _).
  assert (Hspeed : (0 < speed self)%Q)
    by (destruct (Hab _ _ _ _ Hs) as [->|]; [reflexivity|assumption]).
  repeat split.
  - destruct (Hab _ _ _ _ Hz) as [->|]; [reflexivity|assumption].
  - exact Hspeed.
  - destruct (Hab _ _ _ _ Hl) as [->|]; assumption.
  - destruct (Hab _ _ _ _ Hd) as [->|]; [reflexivity|assumption].
  - destruct (Hab _ _ _ _ Hm) as [->|]; [reflexivity|assumption].
Qed.

(** On a homed machine with the toolhead and the homing service
    registered, [_probe] sends the probe from the current X, Y and extruder
    position down to the floor [z_position] and returns the Z component of
    the position the host reports. *)
Lemma probe_run (self : OffsetProbe) (v : Q) (key : pyref) (w w1 : W)
    (t th h : obj) (x y z zt : Q) (rest epos : list Q) :
  assoc pyref_eqb (RName "toolhead") (objects K) = Some t ->
  py_in "z" (homed_axes K w t) = true ->
  assoc pyref_eqb key (objects K) = Some th ->
  assoc pyref_eqb (RName "homing") (objects K) = Some h ->
  get_position K w th = x :: y :: z :: rest ->
  probing_move K h (x :: y :: z_position self :: rest) v w = (Ok epos, w1) ->
  nth_error epos 2 = Some zt ->
  _probe K self v key w =
    (Ok zt, w1, [EvProbingMove (x :: y :: z_position self :: rest) v]).
Proof.
  intros Ht Hz Hth Hh Hpos Hmove Hzt.
  unfold _probe, _ensure_homed, bind, lookup_object, call_homed_axes,
    call_get_position, call_probing_move, try_except_command_error,
    lift_outcome, setitem, getitem, raise, ret.
  rewrite Ht. cbn. rewrite Hz. cbn. rewrite Hth, Hh. cbn.
  rewrite Hpos. cbn. rewrite Hmove. cbn in Hzt. rewrite Hzt. reflexivity.
Qed.

End ConstructionFacts.

Lemma section_of_honours_above (options : list (string * Q)) :
  section_honours_above (section_of options).
Proof.
  intros name default above v. cbn.
  destruct (assoc String.eqb name options) as [q|]; [|intros [= ->]; now left].
  destruct (Qle_bool q above) eqn:E; [discriminate|].
  intros [= ->]. right.
  apply Qnot_le_lt. intros Hle. apply Qle_bool_iff in Hle. congruence.
Qed.

Lemma command_line_honours_above (params : list (string * Q)) :
  command_honours_above (command_line params).
Proof.
  intros name default above v. cbn.
  destruct (assoc String.eqb name params) as [q|]; [|intros [= ->]; now left].
  destruct (Qle_bool q above) eqn:E; [discriminate|].
  intros [= ->]. right.
  apply Qnot_le_lt. intros Hle. apply Qle_bool_iff in Hle. congruence.
Qed.

Lemma demo_instance_built :
  result_of (load_config full_klipper demo_loader demo_config demo_machine) =
  Ok demo_instance.
Proof. reflexivity. Qed.

(** X1.  An instance built by [load_config] from a configuration whose
    section honours the [above] bound has a strictly positive reprobe
    height, plunge speed, lift speed, lift distance and move speed. *)
Theorem load_config_positive
    (W : Type) (K : Klipper W) (L : Loader W) (config : ConfigWrapper)
    (w : W) (self : OffsetProbe) :
  section_honours_above (this_section config) ->
  result_of (load_config K L config w) = Ok self ->
  (0 < tool_probe_z self)%Q /\ (0 < speed self)%Q /\ (0 < lift_speed self)%Q /\
  (0 < lift_distance self)%Q /\ (0 < move_speed self)%Q.
Proof. apply constructed_positive. Qed.

Lemma load_config_positive_witness :
  (0 < tool_probe_z demo_instance)%Q /\ (0 < speed demo_instance)%Q /\
  (0 < lift_speed demo_instance)%Q /\ (0 < lift_distance demo_instance)%Q /\
  (0 < move_speed demo_instance)%Q.
Proof.
  apply (load_config_positive machine full_klipper demo_loader demo_config
           demo_machine demo_instance).
  - apply section_of_honours_above.
  - reflexivity.
Defined.

(** X2.  When [lift_speed] is not set in the configuration, the lift speed
    of the constructed instance is its plunge speed, whatever that was
    configured to be. *)
Theorem lift_speed_defaults_to_speed
    (W : Type) (K : Klipper W) (L : Loader W) (config : ConfigWrapper)
    (w : W) (self : OffsetProbe) :
  option_absent (this_section config) "lift_speed" ->
  result_of (load_config K L config w) = Ok self ->
  lift_speed self = speed self.
Proof.
  intros Habs Hok.
  destruct (load_config_init K L config w self Hok) as (mcu & w1 & Hi).
  destruct (init_fields K L config mcu w1 self Hi) as (_ & _ & Hl & _).
  cbv zeta in Hl. rewrite Habs in Hl. now injection Hl.
Qed.

Lemma lift_speed_defaults_to_speed_witness :
  lift_speed demo_instance = speed demo_instance.
Proof.
  apply (lift_speed_defaults_to_speed machine full_klipper demo_loader
           demo_config demo_machine demo_instance).
  - intros default above. reflexivity.
  - reflexivity.
Defined.

(** X3.  The floor of the probing move comes from the configuration: from
    [position_min] of [stepper_z] when that section exists, from
    [minimum_z_position] of [printer] otherwise.  For an instance built by
    [load_config], with [m] the value read there, [_probe] on a homed
    machine targets [x, y, m, e...] and returns the Z the host reports. *)
Theorem probe_targets_configured_floor
    (W : Type) (K : Klipper W) (L : Loader W) (config : ConfigWrapper)
    (w0 w w1 : W) (self : OffsetProbe) (v m : Q) (key : pyref)
    (t th h : obj) (x y z zt : Q) (rest epos : list Q) :
  result_of (load_config K L config w0) = Ok self ->
  getfloat (getsection config (fst (floor_option config)))
    (snd (floor_option config)) 0 None = Ok m ->
  assoc pyref_eqb (RName "toolhead") (objects K) = Some t ->
  py_in "z" (homed_axes K w t) = true ->
  assoc pyref_eqb key (objects K) = Some th ->
  assoc pyref_eqb (RName "homing") (objects K) = Some h ->
  get_position K w th = x :: y :: z :: rest ->
  probing_move K h (x :: y :: m :: rest) v w = (Ok epos, w1) ->
  nth_error epos 2 = Some zt ->
  _probe K self v key w = (Ok zt, w1, [EvProbingMove (x :: y :: m :: rest) v]).
Proof.
  intros Hok Hm Ht Hz Hth Hh Hpos Hmove Hzt.
  destruct (load_config_init K L config w0 self Hok) as (mcu & w2 & Hi).
  destruct (init_fields K L config mcu w2 self Hi) as (_ & _ & _ & _ & _ & Hf).
  rewrite Hm in Hf. injection Hf as ->.
  now apply (probe_run K self v key w w1 t th h x y z zt rest epos).
Qed.

Lemma probe_targets_configured_floor_witness :
  _probe full_klipper demo_instance 5 (RName "toolhead1") demo_machine =
    (Ok 0.5%Q, set_pos 0%nat [0; 0; 0.5; 0]%Q demo_machine,
     [EvProbingMove [0; 0; -2; 0]%Q 5]).
Proof.
  apply (probe_targets_configured_floor machine full_klipper demo_loader
           demo_config demo_machine demo_machine
           (set_pos 0%nat [0; 0; 0.5; 0]%Q demo_machine) demo_instance 5 (-2)%Q
           (RName "toolhead1") 0%nat 1%nat 2%nat 0 0 10 0.5 [0%Q] [0; 0; 0.5; 0]%Q);
    reflexivity.
Defined.

(** X4.  For an instance built by [load_config], [get_lift_speed] only
    ever returns a strictly positive speed, with or without a command
    object, as long as configuration and command honour the [above]
    bound. *)
Theorem get_lift_speed_positive
    (W : Type) (K : Klipper W) (L : Loader W) (config : ConfigWrapper)
    (w : W) (self : OffsetProbe) (gcmd : option GCodeCommand) (v : Q) :
  section_honours_above (this_section config) ->
  result_of (load_config K L config w) = Ok self ->
  (forall g, gcmd = Some g -> command_honours_above g) ->
  get_lift_speed self gcmd = Ok v ->
  (0 < v)%Q.
Proof.
  intros Hab Hok Hg Hv.
  destruct (constructed_positive K L config w self Hab Hok)
    as (_ & _ & Hl & _).
  destruct gcmd as [g|]; cbn in Hv.
  - destruct (Hg g eq_refl _ _ _ _ Hv) as [->|]; assumption.
  - now injection Hv as <-.
Qed.

Lemma get_lift_speed_positive_witness : (0 < 10)%Q.
Proof.
  apply (get_lift_speed_positive machine full_klipper demo_loader demo_config
           demo_machine demo_instance (Some gcmd_lift_10) 10).
  - apply section_of_honours_above.
  - reflexivity.
  - intros g [= <-]. apply command_line_honours_above.
  - reflexivity.
Defined.

(** ** Homing guard and probing *)

(** X5.  [_ensure_homed] passes exactly when a toolhead is registered under
    ['toolhead'] and reports Z among its homed axes; passing or not, it
    leaves the machine as it is and issues no command. *)
Theorem ensure_homed_passes_iff (W : Type) (K : Klipper W) (w : W) :
  (result_of (_ensure_homed K w) = Ok tt <->
   exists th,
     assoc pyref_eqb (RName "toolhead") (objects K) = Some th /\
     py_in "z" (homed_axes K w th) = true) /\
  world_of (_ensure_homed K w) = w /\
  events_of (_ensure_homed K w) = [].
Proof.
  unfold _ensure_homed, bind, lookup_object, call_homed_axes, raise, ret,
    result_of, world_of, events_of.
  cbn.
  destruct (assoc pyref_eqb (RName "toolhead") (objects K)) as [th|]; cbn.
  - destruct (py_in "z" (homed_axes K w th)) eqn:Hz; cbn;
      (split; [split|split; reflexivity]).
    + eauto.
    + reflexivity.
    + discriminate.
    + intros (th' & [= <-] & Hz'). congruence.
  - split; [split|split; reflexivity].
    + discriminate.
    + intros (th' & [=] & _).
Qed.

(** X6.  On a homed machine, [_probe] for a toolhead that is not in the
    registry raises the unknown-object error for that very key, leaves the
    machine as it is and issues no command. *)
Theorem probe_unknown_toolhead
    (W : Type) (K : Klipper W) (self : OffsetProbe) (v : Q) (key : pyref)
    (w : W) (t : obj) :
  assoc pyref_eqb (RName "toolhead") (objects K) = Some t ->
  py_in "z" (homed_axes K w t) = true ->
  assoc pyref_eqb key (objects K) = None ->
  _probe K self v key w = (Raise (ConfigError key), w, []).
Proof.
  intros Ht Hz Hk.
  unfold _probe, _ensure_homed, bind, lookup_object, call_homed_axes, raise, ret.
  rewrite Ht. cbn. rewrite Hz. cbn. rewrite Hk. reflexivity.
Qed.

Lemma probe_unknown_toolhead_witness :
  _probe demo_klipper demo_probe 5 (RName "toolhead2") demo_machine =
    (Raise (ConfigError (RName "toolhead2")), demo_machine, []).
Proof.
  apply (probe_unknown_toolhead machine demo_klipper demo_probe 5
           (RName "toolhead2") demo_machine 0%nat); reflexivity.
Defined.

(** X7.  When the first call of [_probe] raises, [_accurate_probe] ends
    there with the same exception, machine and commands: there is no
    retry, no lift and no second probe. *)
Theorem accurate_probe_no_retry
    (W : Type) (K : Klipper W) (self : OffsetProbe) (v : Q) (key : pyref)
    (w : W) (th : obj) (e : exn) :
  assoc pyref_eqb key (objects K) = Some th ->
  result_of (_probe K self v (RObj th) w) = Raise e ->
  _accurate_probe K self v key w = _probe K self v (RObj th) w.
Proof.
  intros Hk He.
  unfold _accurate_probe, bind at 1, lookup_object at 1.
  rewrite Hk. cbn. unfold bind at 1.
  unfold result_of in He.
  destruct (_probe K self v (RObj th) w) as [[r w1] l1]. cbn in He. subst r.
  reflexivity.
Qed.

Lemma accurate_probe_no_retry_witness :
  _accurate_probe demo_klipper demo_probe 5 (RName "toolhead") demo_machine =
  _probe demo_klipper demo_probe 5 (RObj 0%nat) demo_machine.
Proof.
  apply (accurate_probe_no_retry machine demo_klipper demo_probe 5
           (RName "toolhead") demo_machine 0%nat (ConfigError (RObj 0%nat)));
    reflexivity.
Defined.

(** X8.  On a homed machine whose registry is keyed by names,
    [_accurate_probe] raises the unknown-object error for the toolhead
    object itself: the one it looked up when given a registered name, the
    one it was given when called with an object, as the command calls it.
    The machine is left as it is and no command is issued. *)
Theorem accurate_probe_unknown_handle
    (W : Type) (K : Klipper W) (self : OffsetProbe) (v : Q) (w : W) (t : obj) :
  names_only (objects K) = true ->
  assoc pyref_eqb (RName "toolhead") (objects K) = Some t ->
  py_in "z" (homed_axes K w t) = true ->
  (forall name th,
     assoc pyref_eqb (RName name) (objects K) = Some th ->
     _accurate_probe K self v (RName name) w =
       (Raise (ConfigError (RObj th)), w, [])) /\
  (forall o,
     _accurate_probe K self v (RObj o) w = (Raise (ConfigError (RObj o)), w, [])).
Proof.
  intros Hn Ht Hz. split.
  - intros name th Hk.
    unfold _accurate_probe, _probe, _ensure_homed, bind, lookup_object,
      call_homed_axes, raise, ret.
    rewrite Hk. cbn. rewrite Ht. cbn. rewrite Hz. cbn.
    rewrite (names_only_no_handle _ th Hn). reflexivity.
  - intros o.
    unfold _accurate_probe, bind at 1, lookup_object at 1.
    rewrite (names_only_no_handle _ o Hn). reflexivity.
Qed.

Lemma accurate_probe_unknown_handle_witness :
  (forall name th,
     assoc pyref_eqb (RName name) (objects demo_klipper) = Some th ->
     _accurate_probe demo_klipper demo_probe 5 (RName name) demo_machine =
       (Raise (ConfigError (RObj th)), demo_machine, [])) /\
  (forall o,
     _accurate_probe demo_klipper demo_probe 5 (RObj o) demo_machine =
       (Raise (ConfigError (RObj o)), demo_machine, [])).
Proof.
  apply (accurate_probe_unknown_handle machine demo_klipper demo_probe 5
           demo_machine 0%nat); reflexivity.
Defined.

(** ** The reprobe speed *)

Lemma py_round_half_small (s : Q) :
  (0 < s)%Q -> (s <= 1)%Q -> py_round (s / 2) = 0.
Proof.
  destruct s as [n d]. unfold Qlt, Qle, Qdiv, Qmult, Qinv, py_round.
  cbn [Qnum Qden]. rewrite Pos2Z.inj_mul.
  intros Hpos Hle.
  assert (Hn : 0 < n <= Z.pos d) by lia.
  replace (n * 1) with n by lia.
  rewrite (Z.div_small n (Z.pos d * 2)) by lia.
  rewrite (Z.mod_small n (Z.pos d * 2)) by lia.
  destruct (Z.compare_spec (2 * n) (Z.pos d * 2)); [reflexivity|reflexivity|lia].
Qed.

Lemma py_round_half_below (s : Q) :
  (0 < s)%Q -> 0 <= py_round (s / 2) /\ (inject_Z (py_round (s / 2)) < s)%Q.
Proof.
  destruct s as [n d]. unfold Qlt, Qdiv, Qmult, Qinv, py_round, inject_Z.
  cbn [Qnum Qden]. rewrite Pos2Z.inj_mul.
  intros Hpos.
  assert (Hn : 0 < n) by lia.
  replace (n * 1) with n by lia.
  set (D := Z.pos d * 2).
  assert (HD : 0 < D) by (unfold D; lia).
  pose proof (Z.div_mod n D ltac:(lia)) as E.
  pose proof (Z.mod_pos_bound n D HD) as B.
  assert (Hf : 0 <= n / D) by (apply Z.div_pos; lia).
  set (f := n / D) in *. set (m := n mod D) in *.
  assert (Hfd : 0 <= f * Z.pos d) by nia.
  destruct (Z.compare_spec (2 * m) D) as [C|C|C].
  - destruct (Z.even f) eqn:Ev.
    + split; [lia|]. unfold D in *. nia.
    + assert (f <> 0) by (intros ->; discriminate).
      split; [lia|]. unfold D in *. nia.
  - split; [lia|]. unfold D in *.
    destruct (Z.eq_dec f 0) as [->|]; nia.
  - split; [lia|]. unfold D in *. nia.
Qed.

(** X9.  For every plunge speed [0 < s <= 1], which the configuration
    accepts, the reprobe speed [round(s / 2)] is 0: the commands of
    [_accurate_probe] are an initial segment of probing move at [s], lift,
    probing move at speed 0. *)
Theorem reprobe_speed_zero_up_to_one
    (W : Type) (K : Klipper W) (self : OffsetProbe) (s : Q) (key : pyref) (w : W) :
  (0 < s)%Q -> (s <= 1)%Q ->
  py_round (s / 2) = 0 /\
  exists p1 th c p2 rest,
    [EvProbingMove p1 s; EvManualMove th c (lift_speed self);
     EvProbingMove p2 0] =
    (events_of (_accurate_probe K self s key w) ++ rest)%list.
Proof.
  intros Hpos Hle.
  pose proof (py_round_half_small s Hpos Hle) as R.
  split; [exact R|].
  destruct (accurate_probe_events K self s key w)
    as (p1 & th & c & p2 & rest & E & _).
  rewrite R in E. now exists p1, th, c, p2, rest.
Qed.

Lemma reprobe_speed_zero_up_to_one_witness :
  py_round (0.8 / 2) = 0 /\
  exists p1 th c p2 rest,
    [EvProbingMove p1 0.8; EvManualMove th c (lift_speed demo_probe);
     EvProbingMove p2 0] =
    (events_of (_accurate_probe demo_klipper demo_probe 0.8 (RName "toolhead")
                  demo_machine) ++ rest)%list.
Proof.
  apply (reprobe_speed_zero_up_to_one machine demo_klipper demo_probe 0.8
           (RName "toolhead") demo_machine);
    [reflexivity|unfold Qle; simpl; lia].
Defined.

(** X10.  For every plunge speed [s > 0] the reprobe speed [round(s / 2)]
    is not negative and strictly below [s]: the second pass is never
    faster than, or as fast as, the first. *)
Theorem reprobe_speed_below_speed (s : Q) :
  (0 < s)%Q ->
  0 <= py_round (s / 2) /\ (inject_Z (py_round (s / 2)) < s)%Q.
Proof. apply py_round_half_below. Qed.

Lemma reprobe_speed_below_speed_witness :
  0 <= py_round (5 / 2) /\ (inject_Z (py_round (5 / 2)) < 5)%Q.
Proof. apply (reprobe_speed_below_speed 5). reflexivity. Defined.

(** ** The coordinate resolver *)

(** X11.  [_get_gcode_position] returns exactly when the offset frame has a
    component for every axis it is given; otherwise it raises
    [IndexError].  With no axis given it returns for any frame, even an
    empty one.  In every case the machine is left as it is and no command
    is issued. *)
Theorem get_gcode_position_bounds
    (W : Type) (K : Klipper W) (x y z : option Q) (w : W) :
  ((exists r, result_of (_get_gcode_position K x y z w) = Ok r) <->
   (x = None \/ (0 < List.length (base_position K w))%nat) /\
   (y = None \/ (1 < List.length (base_position K w))%nat) /\
   (z = None \/ (2 < List.length (base_position K w))%nat)) /\
  ((exists r, result_of (_get_gcode_position K x y z w) = Ok r) \/
   result_of (_get_gcode_position K x y z w) = Raise IndexError) /\
  world_of (_get_gcode_position K x y z w) = w /\
  events_of (_get_gcode_position K x y z w) = [].
Proof.
  unfold _get_gcode_position, bind, read_base_position, lift_outcome, getitem,
    ret, result_of, world_of, events_of.
  destruct (base_position K w) as [|dx [|dy [|dz rest]]];
    destruct x as [x|], y as [y|], z as [z|]; cbn;
    (split; [split|split; [|split; reflexivity]]);
    try (intros _; repeat split; (now left) || (right; lia));
    try (intros _; eexists; reflexivity);
    try (left; eexists; reflexivity);
    try (right; reflexivity);
    try (intros [r [=]]);
    try (intros ([H|H] & [H1|H1] & [H2|H2]); (discriminate || lia)).
Qed.

(** X12.  Resolving coordinates that are already resolved translates them
    a second time: under a frame [dx, dy, dz, ...] each given axis comes
    back moved by twice its frame component.  The resolver is not
    idempotent. *)
Theorem get_gcode_position_twice
    (W : Type) (K : Klipper W) (x y z : option Q) (w : W)
    (dx dy dz : Q) (rest : list Q) :
  base_position K w = dx :: dy :: dz :: rest ->
  bind (_get_gcode_position K x y z)
       (fun r => _get_gcode_position K (fst (fst r)) (snd (fst r)) (snd r)) w =
    (Ok (option_map (fun a => (a + dx + dx)%Q) x,
         option_map (fun a => (a + dy + dy)%Q) y,
         option_map (fun a => (a + dz + dz)%Q) z), w, []).
Proof.
  intros Hf.
  unfold _get_gcode_position, bind, read_base_position, lift_outcome, getitem, ret.
  rewrite Hf.
  destruct x, y, z; cbn; rewrite ?Hf; reflexivity.
Qed.

Lemma get_gcode_position_twice_witness :
  bind (_get_gcode_position demo_klipper (Some 10%Q) None (Some 3%Q))
       (fun r => _get_gcode_position demo_klipper
                   (fst (fst r)) (snd (fst r)) (snd r))
       (set_active 1 demo_machine) =
    (Ok (Some (10 + 1 + 1)%Q, None, Some (3 + 0.25 + 0.25)%Q),
     set_active 1 demo_machine, []).
Proof.
  apply (get_gcode_position_twice machine demo_klipper (Some 10%Q) None
           (Some 3%Q) (set_active 1 demo_machine) 1 2 0.25 [0%Q]).
  reflexivity.
Defined.

(** ** Lifts *)

(** X13.  A lift of a toolhead that is not in the registry raises the
    unknown-object error for that key and commands no move; such is the
    lift of toolhead [2] that [_accurate_probe] asks for. *)
Theorem lift_unknown_toolhead
    (W : Type) (K : Klipper W) (self : OffsetProbe) (key : pyref)
    (dist : option Q) (w : W) :
  assoc pyref_eqb key (objects K) = None ->
  _lift_between_probes K self key dist w = (Raise (ConfigError key), w, []).
Proof.
  intros Hk. unfold _lift_between_probes, bind at 1, lookup_object.
  rewrite Hk. reflexivity.
Qed.

Lemma lift_unknown_toolhead_witness :
  _lift_between_probes demo_klipper demo_probe (RInt 2) None demo_machine =
    (Raise (ConfigError (RInt 2)), demo_machine, []).
Proof.
  apply (lift_unknown_toolhead machine demo_klipper demo_probe (RInt 2) None
           demo_machine).
  reflexivity.
Defined.

(** X14.  A lift is the host's move and nothing more: for a registered
    toolhead at [x, y, z, e...], the outcome and the machine after
    [_lift_between_probes] are those of the move to [x, y, z + dist, e...]
    at the configured lift speed, so a move refused by the host is a lift
    that raises the same error.  Homing is not checked. *)
Theorem lift_outcome_is_move_outcome
    (W : Type) (K : Klipper W) (self : OffsetProbe) (key : pyref)
    (dist : option Q) (w w1 : W) (th : obj) (x y z : Q) (rest : list Q)
    (r : outcome unit) :
  assoc pyref_eqb key (objects K) = Some th ->
  get_position K w th = x :: y :: z :: rest ->
  manual_move K th
    (Some x :: Some y
     :: Some (z + match dist with
                  | None => lift_distance self
                  | Some d => d
                  end)%Q
     :: map Some rest)
    (lift_speed self) w = (r, w1) ->
  result_of (_lift_between_probes K self key dist w) = r /\
  world_of (_lift_between_probes K self key dist w) = w1.
Proof.
  intros Hth Hpos Hmove.
  unfold _lift_between_probes, bind, lookup_object, call_get_position,
    call_manual_move, lift_outcome, getitem, setitem, result_of, world_of.
  rewrite Hth. cbn. rewrite Hpos. cbn. rewrite Hmove.
  destruct r; split; reflexivity.
Qed.

Lemma lift_outcome_is_move_outcome_witness :
  result_of (_lift_between_probes demo_klipper demo_probe (RName "toolhead")
               (Some 2%Q) unhomed_machine) = Ok tt /\
  world_of (_lift_between_probes demo_klipper demo_probe (RName "toolhead")
              (Some 2%Q) unhomed_machine) =
    set_pos 0%nat [0; 0; 10 + 2; 0]%Q unhomed_machine.
Proof.
  apply (lift_outcome_is_move_outcome machine demo_klipper demo_probe
           (RName "toolhead") (Some 2%Q) unhomed_machine
           (set_pos 0%nat [0; 0; 10 + 2; 0]%Q unhomed_machine)
           0%nat 0 0 10 [0%Q] (Ok tt));
    reflexivity.
Defined.

(** ** The command *)

(** X15.  When the start script and the toolchange script of tool 0 run
    and the toolhead reports a position of at least three components,
    [cmd_OFFSET_PROBE] raises [TypeError] on the machine as the two scripts
    left it, having issued those two script runs and nothing else. *)
Theorem cmd_raises_type_error
    (W : Type) (K : Klipper W) (self : OffsetProbe) (gcmd : GCodeCommand)
    (w w1 w2 : W) (th : obj) (x y z : Q) (rest : list Q) :
  run_gcode_from_command K (start_gcode self) w = (Ok tt, w1) ->
  assoc pyref_eqb (RName "toolhead") (objects K) = Some th ->
  run_gcode_from_command K (toolchange_gcode_0 self) w1 = (Ok tt, w2) ->
  get_position K w2 th = x :: y :: z :: rest ->
  cmd_OFFSET_PROBE K self gcmd w =
    (Raise TypeError, w2,
     [EvRunGcode (start_gcode self); EvRunGcode (toolchange_gcode_0 self)]).
Proof.
  intros Hs Hth Ht Hpos.
  unfold cmd_OFFSET_PROBE, probe_tool_0, bind, call_run_gcode, lookup_object,
    call_get_position, lift_outcome, getitem.
  rewrite Hs. cbn. rewrite Hth. cbn. rewrite Ht. cbn. rewrite Hpos.
  reflexivity.
Qed.

Lemma cmd_raises_type_error_witness :
  cmd_OFFSET_PROBE demo_klipper demo_probe gcmd_lift_10 unhomed_machine =
    (Raise TypeError, unhomed_machine,
     [EvRunGcode "start_gcode"; EvRunGcode "toolchange_gcode_0"]).
Proof.
  apply (cmd_raises_type_error machine demo_klipper demo_probe gcmd_lift_10
           unhomed_machine unhomed_machine unhomed_machine 0%nat 0 0 10 [0%Q]);
    reflexivity.
Defined.

(** X16.  An exception raised by the start script or by the toolchange
    script of tool 0 ends the command with that exception, on the machine
    as the failing script left it; no later script is run, the end script
    included. *)
Theorem cmd_script_error_propagates
    (W : Type) (K : Klipper W) (self : OffsetProbe) (gcmd : GCodeCommand)
    (w w1 : W) (e : exn) :
  (run_gcode_from_command K (start_gcode self) w = (Raise e, w1) ->
   cmd_OFFSET_PROBE K self gcmd w =
     (Raise e, w1, [EvRunGcode (start_gcode self)])) /\
  (forall w2 th,
     run_gcode_from_command K (start_gcode self) w = (Ok tt, w1) ->
     assoc pyref_eqb (RName "toolhead") (objects K) = Some th ->
     run_gcode_from_command K (toolchange_gcode_0 self) w1 = (Raise e, w2) ->
     cmd_OFFSET_PROBE K self gcmd w =
       (Raise e, w2,
        [EvRunGcode (start_gcode self); EvRunGcode (toolchange_gcode_0 self)])).
Proof.
  split.
  - intros Hs. unfold cmd_OFFSET_PROBE, bind at 1, call_run_gcode at 1.
    rewrite Hs. reflexivity.
  - intros w2 th Hs Hth Ht.
    unfold cmd_OFFSET_PROBE, probe_tool_0, bind, call_run_gcode, lookup_object.
    rewrite Hs. cbn. rewrite Hth. cbn. rewrite Ht. reflexivity.
Qed.

Lemma cmd_script_error_propagates_witness :
  cmd_OFFSET_PROBE broken_start_klipper demo_probe gcmd_plain demo_machine =
    (Raise (CommandError "Unknown command"), demo_machine,
     [EvRunGcode "start_gcode"]).
Proof.
  apply (proj1 (cmd_script_error_propagates machine broken_start_klipper
                  demo_probe gcmd_plain demo_machine demo_machine
                  (CommandError "Unknown command"))).
  reflexivity.
Defined.

(** X17.  Whatever the host, the commands issued by [cmd_OFFSET_PROBE] are
    the run of the start script, followed or not by the run of tool 0's
    toolchange script: tool 1's toolchange script and the end script are
    never run, no move or probing move is made, no response is sent. *)
Theorem cmd_runs_at_most_two_scripts
    (W : Type) (K : Klipper W) (self : OffsetProbe) (gcmd : GCodeCommand) (w : W) :
  events_of (cmd_OFFSET_PROBE K self gcmd w) = [EvRunGcode (start_gcode self)] \/
  events_of (cmd_OFFSET_PROBE K self gcmd w) =
    [EvRunGcode (start_gcode self); EvRunGcode (toolchange_gcode_0 self)].
Proof.
  unfold cmd_OFFSET_PROBE.
  rewrite bind_events.
  assert (Hs : events_of (call_run_gcode K (start_gcode self) w) =
               [EvRunGcode (start_gcode self)])
    by (unfold call_run_gcode, events_of;
        now destruct (run_gcode_from_command K (start_gcode self) w)).
  rewrite Hs.
  destruct (result_of (call_run_gcode K (start_gcode self) w)) as [[]|e0];
    [|now left].
  set (w1 := world_of (call_run_gcode K (start_gcode self) w)).
  rewrite bind_events.
  assert (Hl : events_of (lookup_object K (RName "toolhead") w1) = [])
    by (unfold lookup_object, events_of;
        now destruct (assoc pyref_eqb (RName "toolhead") (objects K))).
  rewrite Hl.
  destruct (result_of (lookup_object K (RName "toolhead") w1)) as [th|e1];
    [|now left].
  set (w2 := world_of (lookup_object K (RName "toolhead") w1)).
  cbv zeta. rewrite bind_events.
  destruct (probe_tool_0_raises K self gcmd th w2) as [[e He] Hev].
  rewrite He, Hev. now right.
Qed.

(** X18.  In the summary the entry at position [k] of the offset list is
    labelled [T<k>], counting from 0, and formatted with six decimals; there
    is one entry per offset.  The k-th offset belonging to tool [k + 1],
    every label is one below its tool's number. *)
Theorem offset_strs_labels (offsets : list Q) (i : Z) (k : nat) (o : Q) :
  nth_error offsets k = Some o ->
  nth_error (offset_strs i offsets) k =
    Some ("T" ++ format_d (i + Z.of_nat k) ++ "=" ++ format_f6 o) /\
  List.length (offset_strs i offsets) = List.length offsets.
Proof.
  revert i k. induction offsets as [|a offsets IH]; intros i k Hk.
  - destruct k; discriminate.
  - destruct k as [|k].
    + injection Hk as ->. cbn [offset_strs nth_error List.length].
      rewrite Z.add_0_r. split; [reflexivity|].
      f_equal.
      clear. revert i. induction offsets as [|b l IHl]; intros i;
        [reflexivity|]. cbn [offset_strs List.length]. now rewrite IHl.
    + cbn [nth_error] in Hk. destruct (IH (i + 1) k Hk) as [E Len].
      cbn [offset_strs nth_error List.length]. rewrite E, Len.
      split; [|reflexivity].
      replace (i + 1 + Z.of_nat k) with (i + Z.of_nat (S k)) by lia.
      reflexivity.
Qed.

Lemma offset_strs_labels_witness :
  nth_error (offset_strs 0 [0.12; 0.07; (-0.3)]%Q) 2 =
    Some ("T" ++ format_d (0 + Z.of_nat 2) ++ "=" ++ format_f6 (-0.3)%Q) /\
  List.length (offset_strs 0 [0.12; 0.07; (-0.3)]%Q) = 3%nat.
Proof.
  apply (offset_strs_labels [0.12; 0.07; (-0.3)]%Q 0 2 (-0.3)%Q).
  reflexivity.
Defined.

(** X19.  The cycle of tool 1 looks the toolhead up under ['toolhead1'],
    runs its toolchange script and then moves that toolhead, at the
    configured move speed, to the probe point and its current Z, each
    translated by the offset frame in force after the script; the extruder
    component of the pose is passed on unchanged. *)
Theorem tool_1_moves_to_resolved_target
    (W : Type) (K : Klipper W) (self : OffsetProbe) (gcmd : GCodeCommand)
    (base_z : Q) (offsets : list Q) (w w1 : W) (th : obj)
    (x y z dx dy dz : Q) (rest frame_rest : list Q) :
  assoc pyref_eqb (RName "toolhead1") (objects K) = Some th ->
  run_gcode_from_command K (toolchange_gcode_1 self) w = (Ok tt, w1) ->
  get_position K w1 th = x :: y :: z :: rest ->
  base_position K w1 = dx :: dy :: dz :: frame_rest ->
  exists tail,
    events_of (probe_tool_1 K self gcmd base_z offsets w) =
    EvRunGcode (toolchange_gcode_1 self)
    :: EvManualMove th
         (Some (probe_x self + dx)%Q :: Some (probe_y self + dy)%Q
          :: Some (z + dz)%Q :: map Some rest)
         (move_speed self)
    :: tail.
Proof. apply tool_1_target_resolved. Qed.

Lemma tool_1_moves_to_resolved_target_witness :
  exists tail,
    events_of (probe_tool_1 demo_klipper demo_probe gcmd_plain 0.5 [] demo_machine) =
    EvRunGcode "toolchange_gcode_1"
    :: EvManualMove 1%nat
         [Some (10 + 1)%Q; Some (20 + 2)%Q; Some (10 + 0.25)%Q; Some 0%Q] 100
    :: tail.
Proof.
  apply (tool_1_moves_to_resolved_target machine demo_klipper demo_probe
           gcmd_plain 0.5 [] demo_machine (set_active 1 demo_machine) 1%nat
           0 0 10 1 2 0.25 [0%Q] [0%Q]);
    reflexivity.
Defined.

(** X20.  On a homed machine with the toolhead and the homing service
    registered, [_probe] issues one probing move, at the speed it was
    given, from the toolhead's X, Y and extruder position down to the
    configured floor; it returns the Z component of the position the host
    reports for the trigger, not the floor it aimed at, and leaves the
    machine as the probing move left it. *)
Theorem probe_returns_trigger_height
    (W : Type) (K : Klipper W) (self : OffsetProbe) (v : Q) (key : pyref)
    (w w1 : W) (t th h : obj) (x y z zt : Q) (rest epos : list Q) :
  assoc pyref_eqb (RName "toolhead") (objects K) = Some t ->
  py_in "z" (homed_axes K w t) = true ->
  assoc pyref_eqb key (objects K) = Some th ->
  assoc pyref_eqb (RName "homing") (objects K) = Some h ->
  get_position K w th = x :: y :: z :: rest ->
  probing_move K h (x :: y :: z_position self :: rest) v w = (Ok epos, w1) ->
  nth_error epos 2 = Some zt ->
  _probe K self v key w =
    (Ok zt, w1, [EvProbingMove (x :: y :: z_position self :: rest) v]).
Proof. apply probe_run. Qed.

Lemma probe_returns_trigger_height_witness :
  _probe demo_klipper demo_probe 5 (RName "toolhead") demo_machine =
    (Ok 0.5%Q, set_pos 0%nat [0; 0; 0.5; 0]%Q demo_machine,
     [EvProbingMove [0; 0; 0; 0]%Q 5]).
Proof.
  apply (probe_returns_trigger_height machine demo_klipper demo_probe 5
           (RName "toolhead") demo_machine
           (set_pos 0%nat [0; 0; 0.5; 0]%Q demo_machine)
           0%nat 0%nat 2%nat 0 0 10 0.5 [0%Q] [0; 0; 0.5; 0]%Q);
    reflexivity.
Defined.
